(** * Refund-request evaluator: [src/pages/index.tsx]

    A shallow embedding of the four functions of the page that carry logic
    ([parseCustomerInfo], [calculateRequestTiming], [calculateRefundPeriod],
    [evaluate]) and of the batch [data.map(evaluate)] in [Home], followed by
    the properties of the specification.

    Conventions of the embedding.
    - A JavaScript number is an exact rational or [NaN], and the arithmetic
      of [evaluate] is exact; [Binary64] gives [calculateRequestTiming] and
      [evaluate] again with the rounding of binary64, and the two are proved
      to return the same verdicts.  The infinities, which this program never
      produces, are left out.
    - A [Date] is its time value: a whole number of milliseconds, or nothing
      for an Invalid Date (whose [getTime()] is [NaN]).
    - [new Date(string)] is a parameter of the program ([Date_new]): for the
      strings built here, which are not ISO strings, the language leaves the
      parsing to the host.  [Host.Date_new] is one such host, used to run the
      program on concrete records.
    - A [throw] is the [Throw] case of a [completion].
    - The table body that [Home] renders is the list of its rows; the three
      functions of date-fns the page calls ([isBefore], [differenceInHours],
      [format]) follow their documentation, and the text [format] gives for
      a valid date is a parameter ([format_text]). *)

From Stdlib Require Import ZArith QArith Qround Qpower Qabs Floats.
From Stdlib Require Import Bool List String Ascii Lia Lqa.
Import ListNotations.

Local Open Scope string_scope.

(** ** JavaScript values *)

Module JS.

Inductive number : Type :=
| NaN
| Num (q : Q).

Definition of_Z (z : Z) : number := Num (inject_Z z).

(** [x - y] *)
Definition sub (x y : number) : number :=
  match x, y with
  | Num a, Num b => Num (a - b)
  | _, _ => NaN
  end.

(** [x * y] *)
Definition mul (x y : number) : number :=
  match x, y with
  | Num a, Num b => Num (a * b)
  | _, _ => NaN
  end.

(** [x / y].  A zero divisor gives an infinity or [NaN] in JavaScript; the
    only divisor of this program is the literal [60 * 60 * 1000]. *)
Definition div (x y : number) : number :=
  match x, y with
  | Num a, Num b => if Qeq_bool b 0 then NaN else Num (a / b)
  | _, _ => NaN
  end.

(** [x <= y]: false as soon as one side is [NaN]. *)
Definition leb (x y : number) : bool :=
  match x, y with
  | Num a, Num b => Qle_bool a b
  | _, _ => false
  end.

(** [x < y]: false as soon as one side is [NaN]. *)
Definition ltb (x y : number) : bool :=
  match x, y with
  | Num a, Num b => negb (Qle_bool b a)
  | _, _ => false
  end.

(** The order of the numbers as a relation: [NaN] is related to nothing. *)
Inductive le : number -> number -> Prop :=
| le_Num (a b : Q) : (a <= b)%Q -> le (Num a) (Num b).

(** Numeric equality ([NaN] equals nothing, itself included). *)
Inductive eq : number -> number -> Prop :=
| eq_Num (a b : Q) : (a == b)%Q -> eq (Num a) (Num b).

(** [Error]: the only exception this program constructs. *)
Inductive exn : Type :=
| Error (message : string).

(** The outcome of a call: a value, or an exception on its way up. *)
Inductive completion (A : Type) : Type :=
| Return (a : A)
| Throw (e : exn).
Arguments Return {A} a.
Arguments Throw {A} e.

Definition bind {A B : Type} (c : completion A) (k : A -> completion B)
  : completion B :=
  match c with
  | Return a => k a
  | Throw e => Throw e
  end.

(** [s.split(sep)] for a separator of one character: the pieces between
    the separators, in order; a string without separator is its own only
    piece, the empty string included. *)
Fixpoint split (sep : ascii) (s : string) : list string :=
  match s with
  | EmptyString => [EmptyString]
  | String c s' =>
      if Ascii.eqb c sep then EmptyString :: split sep s'
      else match split sep s' with
           | piece :: pieces => String c piece :: pieces
           | [] => [String c EmptyString]
           end
  end.

(** [a[i]] on an array of strings: [undefined] past the end. *)
Definition index (a : list string) (i : nat) : option string :=
  nth_error a i.

(** [${x}] in a template literal, where [x] is a string or [undefined]. *)
Definition template (x : option string) : string :=
  match x with
  | Some s => s
  | None => "undefined"
  end.

(** [a.map(f)]: the elements are visited in order and the first exception
    leaves the call; no array is returned then. *)
Fixpoint Array_map {A B : Type} (f : A -> completion B) (a : list A)
  : completion (list B) :=
  match a with
  | [] => Return []
  | x :: a' =>
      bind (f x) (fun y =>
      bind (Array_map f a') (fun ys =>
      Return (y :: ys)))
  end.

(** A [Date] object, by its time value. *)
Definition Date : Type := option Z.

(** [d.getTime()] *)
Definition getTime (d : Date) : number :=
  match d with
  | Some t => of_Z t
  | None => NaN
  end.

End JS.

Notation "x <- c ;; k" := (JS.bind c (fun x => k))
  (at level 61, c at next level, right associativity).

(** [isBefore] of date-fns: [+date < +dateToCompare]. *)
Definition isBefore (date dateToCompare : JS.Date) : bool :=
  JS.ltb (JS.getTime date) (JS.getTime dateToCompare).

(** ** The records of the page *)

Module CustomerData.
(** [Location] and [Source] are declared as unions of string literals; the
    values come from [data.json] through a cast, so they are strings. *)
Record t : Type := mk {
  Name : string;
  Location : string;
  SignupDate : string;
  Source : string;
  InvestmentDate : string;
  InvestmentTime : string;
  RefundDate : string;
  RefundTime : string
}.

(** [{...c, Source: s}] and [{...c, Location: l}]. *)
Definition with_Source (s : string) (c : t) : t :=
  {| Name := Name c;
     Location := Location c;
     SignupDate := SignupDate c;
     Source := s;
     InvestmentDate := InvestmentDate c;
     InvestmentTime := InvestmentTime c;
     RefundDate := RefundDate c;
     RefundTime := RefundTime c |}.

Definition with_Location (l : string) (c : t) : t :=
  {| Name := Name c;
     Location := l;
     SignupDate := SignupDate c;
     Source := Source c;
     InvestmentDate := InvestmentDate c;
     InvestmentTime := InvestmentTime c;
     RefundDate := RefundDate c;
     RefundTime := RefundTime c |}.

End CustomerData.

Module StandardCustomerData.
(** The object [parseCustomerInfo] returns.  The spread [...customer]
    carries [InvestmentTime] and [RefundTime] along, although the declared
    type does not list them. *)
Record t : Type := mk {
  Name : string;
  Location : string;
  SignupDate : JS.Date;
  Source : string;
  InvestmentDate : JS.Date;
  InvestmentTime : string;
  RefundDate : JS.Date;
  RefundTime : string;
  isRequestValid : bool
}.
End StandardCustomerData.

Module Evaluated.
(** The object [evaluate] returns. *)
Record t : Type := mk {
  Name : string;
  Location : string;
  SignupDate : JS.Date;
  Source : string;
  InvestmentDate : JS.Date;
  InvestmentTime : string;
  RefundDate : JS.Date;
  RefundTime : string;
  requestTiming : JS.number;
  refundPeriod : JS.number;
  isRequestValid : bool
}.
End Evaluated.

(** ** The program *)

Section Program.

(** [new Date(s)] for a string [s]. *)
Variable Date_new : string -> JS.Date.

(** [`${d[0]}/${d[1]}/${d[2]}`] when [isUS], [`${d[1]}/${d[0]}/${d[2]}`]
    otherwise: the expression written three times in [parseCustomerInfo]. *)
Definition dateFormat (isUS : bool) (d : list string) : string :=
  if isUS
  then JS.template (JS.index d 0) ++ "/" ++ JS.template (JS.index d 1)
       ++ "/" ++ JS.template (JS.index d 2)
  else JS.template (JS.index d 1) ++ "/" ++ JS.template (JS.index d 0)
       ++ "/" ++ JS.template (JS.index d 2).

Definition parseCustomerInfo (customer : CustomerData.t)
  : StandardCustomerData.t :=
  let signupDate := JS.split "/" (CustomerData.SignupDate customer) in
  let investmentDate := JS.split "/" (CustomerData.InvestmentDate customer) in
  let refundDate := JS.split "/" (CustomerData.RefundDate customer) in
  let isUS := CustomerData.Location customer =? "US" in
  let signupDateFormat := dateFormat isUS signupDate in
  let investmentDateFormat := dateFormat isUS investmentDate in
  let refundDateFormat := dateFormat isUS refundDate in
  {| StandardCustomerData.Name := CustomerData.Name customer;
     StandardCustomerData.Location := CustomerData.Location customer;
     StandardCustomerData.SignupDate := Date_new signupDateFormat;
     StandardCustomerData.Source := CustomerData.Source customer;
     StandardCustomerData.InvestmentDate :=
       Date_new (investmentDateFormat ++ " "
                 ++ CustomerData.InvestmentTime customer);
     StandardCustomerData.InvestmentTime :=
       CustomerData.InvestmentTime customer;
     StandardCustomerData.RefundDate :=
       Date_new (refundDateFormat ++ " " ++ CustomerData.RefundTime customer);
     StandardCustomerData.RefundTime := CustomerData.RefundTime customer;
     StandardCustomerData.isRequestValid := false |}.

Definition calculateRequestTiming (customer : StandardCustomerData.t)
  : JS.number :=
  let investmentTimestamp :=
    JS.getTime (StandardCustomerData.InvestmentDate customer) in
  let refundTimestamp :=
    JS.getTime (StandardCustomerData.RefundDate customer) in
  let timeDiffInHours :=
    JS.div (JS.sub refundTimestamp investmentTimestamp)
           (JS.mul (JS.mul (JS.of_Z 60) (JS.of_Z 60)) (JS.of_Z 1000)) in
  timeDiffInHours.

Definition calculateRefundPeriod (customer : StandardCustomerData.t)
  : JS.completion JS.number :=
  let isOldTOS :=
    isBefore (StandardCustomerData.SignupDate customer)
             (Date_new "01-02-2020") in
  if StandardCustomerData.Source customer =? "phone" then
    JS.Return (if isOldTOS then JS.of_Z 4 else JS.of_Z 8)
  else if StandardCustomerData.Source customer =? "web app" then
    JS.Return (if isOldTOS then JS.of_Z 8 else JS.of_Z 16)
  else
    JS.Throw (JS.Error "Invalid Source").

Definition evaluate (data : CustomerData.t) : JS.completion Evaluated.t :=
  let customer := parseCustomerInfo data in
  let requestTiming := calculateRequestTiming customer in
  refundPeriod <- calculateRefundPeriod customer ;;
  let isRequestValid := JS.leb requestTiming refundPeriod in
  JS.Return
    {| Evaluated.Name := StandardCustomerData.Name customer;
       Evaluated.Location := StandardCustomerData.Location customer;
       Evaluated.SignupDate := StandardCustomerData.SignupDate customer;
       Evaluated.Source := StandardCustomerData.Source customer;
       Evaluated.InvestmentDate :=
         StandardCustomerData.InvestmentDate customer;
       Evaluated.InvestmentTime :=
         StandardCustomerData.InvestmentTime customer;
       Evaluated.RefundDate := StandardCustomerData.RefundDate customer;
       Evaluated.RefundTime := StandardCustomerData.RefundTime customer;
       Evaluated.requestTiming := requestTiming;
       Evaluated.refundPeriod := refundPeriod;
       Evaluated.isRequestValid := isRequestValid |}.

(** [const customerData = (data as CustomerData[]).map(evaluate)] in
    [Home]; [data] is the content of [data.json]. *)
Definition customerData (data : list CustomerData.t)
  : JS.completion (list Evaluated.t) :=
  JS.Array_map evaluate data.

End Program.

(** ** The elapsed time in binary64

    The numbers of JavaScript are binary64 numbers: each operation gives the
    exact result rounded to the nearest number of 53 significant bits, ties
    to the even one.  This part gives [calculateRequestTiming] and [evaluate]
    again with that rounding.  The exponent range of binary64 is left out:
    the numbers met here are time values (whole, at most 8.64e15 in
    magnitude), their differences, the literals and the quotient by 3600000,
    all between 2^-22 and 2^55 in magnitude when they are not zero. *)

Module Binary64.

Local Open Scope Q_scope.

Definition pow2 (k : Z) : Q := 2 ^ k.

(** The whole part of the binary logarithm of [q], for [0 < q]. *)
Definition ilog2 (q : Q) : Z :=
  let l := (Z.log2 (Qnum q) - Z.log2 (Zpos (Qden q)))%Z in
  if Qle_bool (pow2 l) q then l else (l - 1)%Z.

(** The nearest whole number, the even one of the two at a tie. *)
Definition nearest_even (q : Q) : Z :=
  let f := Qfloor q in
  match Qcompare (q - inject_Z f) (1 # 2) with
  | Lt => f
  | Gt => (f + 1)%Z
  | Eq => if Z.even f then f else (f + 1)%Z
  end.

(** [q] to 53 significant bits, for [0 < q]: with [2^l <= q < 2^(l+1)], the
    nearest multiple of [2^(l-52)]. *)
Definition round_positive (q : Q) : Q :=
  let e := (ilog2 q - 52)%Z in
  inject_Z (nearest_even (q * pow2 (- e))) * pow2 e.

Definition round (q : Q) : Q :=
  match Qcompare q 0 with
  | Eq => 0
  | Gt => round_positive q
  | Lt => - round_positive (- q)
  end.

(** [x - y] *)
Definition sub (x y : JS.number) : JS.number :=
  match x, y with
  | JS.Num a, JS.Num b => JS.Num (round (a - b))
  | _, _ => JS.NaN
  end.

(** [x * y] *)
Definition mul (x y : JS.number) : JS.number :=
  match x, y with
  | JS.Num a, JS.Num b => JS.Num (round (a * b))
  | _, _ => JS.NaN
  end.

(** [x / y], for a divisor that is not zero. *)
Definition div (x y : JS.number) : JS.number :=
  match x, y with
  | JS.Num a, JS.Num b =>
      if Qeq_bool b 0 then JS.NaN else JS.Num (round (a / b))
  | _, _ => JS.NaN
  end.

Definition calculateRequestTiming (customer : StandardCustomerData.t)
  : JS.number :=
  let investmentTimestamp :=
    JS.getTime (StandardCustomerData.InvestmentDate customer) in
  let refundTimestamp :=
    JS.getTime (StandardCustomerData.RefundDate customer) in
  let timeDiffInHours :=
    div (sub refundTimestamp investmentTimestamp)
        (mul (mul (JS.of_Z 60) (JS.of_Z 60)) (JS.of_Z 1000)) in
  timeDiffInHours.

Definition evaluate (Date_new : string -> JS.Date) (data : CustomerData.t)
  : JS.completion Evaluated.t :=
  let customer := parseCustomerInfo Date_new data in
  let requestTiming := calculateRequestTiming customer in
  refundPeriod <- calculateRefundPeriod Date_new customer ;;
  let isRequestValid := JS.leb requestTiming refundPeriod in
  JS.Return
    {| Evaluated.Name := StandardCustomerData.Name customer;
       Evaluated.Location := StandardCustomerData.Location customer;
       Evaluated.SignupDate := StandardCustomerData.SignupDate customer;
       Evaluated.Source := StandardCustomerData.Source customer;
       Evaluated.InvestmentDate :=
         StandardCustomerData.InvestmentDate customer;
       Evaluated.InvestmentTime :=
         StandardCustomerData.InvestmentTime customer;
       Evaluated.RefundDate := StandardCustomerData.RefundDate customer;
       Evaluated.RefundTime := StandardCustomerData.RefundTime customer;
       Evaluated.requestTiming := requestTiming;
       Evaluated.refundPeriod := refundPeriod;
       Evaluated.isRequestValid := isRequestValid |}.

(** The quotient of two whole numbers by the division of the machine's own
    binary64 numbers, to compare [round] with. *)
Definition machine_number (z : Z) : PrimFloat.float :=
  match z with
  | Z0 => PrimFloat.zero
  | Zpos _ => PrimFloat.of_uint63 (Uint63.of_Z z)
  | Zneg p => PrimFloat.opp (PrimFloat.of_uint63 (Uint63.of_Z (Zpos p)))
  end.

Definition machine_value (x : PrimFloat.float) : JS.number :=
  match FloatOps.Prim2SF x with
  | S754_zero _ => JS.Num 0
  | S754_finite s m e =>
      JS.Num (inject_Z (if s then Zneg m else Zpos m) * pow2 e)
  | _ => JS.NaN
  end.

Definition machine_quotient (a b : Z) : JS.number :=
  machine_value (PrimFloat.div (machine_number a) (machine_number b)).

End Binary64.

(** ** The table of the page *)

(** [Math.trunc]: the whole part, towards zero. *)
Definition Math_trunc (x : JS.number) : JS.number :=
  match x with
  | JS.Num q => JS.of_Z (Z.quot (Qnum q) (Zpos (Qden q)))
  | JS.NaN => JS.NaN
  end.

(** [differenceInHours] of date-fns: the difference of the two time values,
    divided by the milliseconds of an hour, truncated. *)
Definition differenceInHours (dateLeft dateRight : JS.Date) : JS.number :=
  Math_trunc
    (JS.div (JS.sub (JS.getTime dateLeft) (JS.getTime dateRight))
            (JS.of_Z 3600000)).

Module Row.
(** One [<tr>] of the table body: its key, its class and the content of its
    ten cells; the hours cell holds the number that the letter h follows. *)
Record t : Type := mk {
  key : string;
  className : string;
  Name : string;
  Location : string;
  SignupDate : string;
  Source : string;
  InvestmentDate : string;
  RefundDate : string;
  RefundHours : JS.number;
  RefundPeriod : JS.number;
  TOS : string;
  RequestStatus : string;
  RequestStatusClass : string
}.
End Row.

Section Page.

(** [new Date(s)] for a string [s]. *)
Variable Date_new : string -> JS.Date.

(** The text date-fns gives for a valid date and a pattern; it depends on
    the time zone of the host. *)
Variable format_text : Z -> string -> string.

(** [format] of date-fns: a RangeError (kept here by its message) for an
    Invalid Date, the formatted text otherwise. *)
Definition format (date : JS.Date) (formatStr : string)
  : JS.completion string :=
  match date with
  | Some t => JS.Return (format_text t formatStr)
  | None => JS.Throw (JS.Error "Invalid time value")
  end.

(** The callback of [customerData.map] in the JSX of [Home]. *)
Definition row (customer : Evaluated.t) : JS.completion Row.t :=
  let className :=
    (if Evaluated.isRequestValid customer
     then "bg-green-200" else "bg-red-200")
    ++ " transition-colors duration-300 hover:bg-gray-100" in
  signup <- format (Evaluated.SignupDate customer) "dd/MM/yyyy - HH:mm" ;;
  investment <-
    format (Evaluated.InvestmentDate customer) "dd/MM/yyyy - HH:mm" ;;
  refund <- format (Evaluated.RefundDate customer) "dd/MM/yyyy - HH:mm" ;;
  JS.Return
    {| Row.key := Evaluated.Name customer;
       Row.className := className;
       Row.Name := Evaluated.Name customer;
       Row.Location := Evaluated.Location customer;
       Row.SignupDate := signup;
       Row.Source := Evaluated.Source customer;
       Row.InvestmentDate := investment;
       Row.RefundDate := refund;
       Row.RefundHours :=
         differenceInHours (Evaluated.RefundDate customer)
                           (Evaluated.InvestmentDate customer);
       Row.RefundPeriod := Evaluated.refundPeriod customer;
       Row.TOS :=
         if isBefore (Evaluated.SignupDate customer) (Date_new "01-02-2020")
         then "Old" else "New";
       Row.RequestStatus :=
         if Evaluated.isRequestValid customer then "Valid" else "Invalid";
       Row.RequestStatusClass :=
         if Evaluated.isRequestValid customer
         then "text-green-600" else "text-red-600" |}.

(** [Home], by the rows of its table body; the rest of the page is fixed
    markup. *)
Definition Home (data : list CustomerData.t) : JS.completion (list Row.t) :=
  customerData <- customerData Date_new data ;;
  JS.Array_map row customerData.

End Page.

(** ** A host for [new Date(string)]

    A stand-in for the date parser of a host, in the legacy, month-first
    reading that V8 gives to numeric dates: numbers between slashes or
    dashes, alone or followed by one space and [H:MM].  It is no model of a
    whole parser (names of months, seconds, time zones and the like are not
    read, and such strings are Invalid Dates here); it serves to run the
    program on records.  The local time zone is UTC, so a time value is the
    wall-clock instant counted in milliseconds from 1970-01-01 00:00. *)

Module Host.

Local Open Scope Z_scope.

Definition digit (c : ascii) : option Z :=
  let n := Z.of_nat (nat_of_ascii c) in
  if (48 <=? n) && (n <=? 57) then Some (n - 48) else None.

Fixpoint digits (acc : Z) (s : string) : option Z :=
  match s with
  | EmptyString => Some acc
  | String c s' =>
      match digit c with
      | Some d => digits (10 * acc + d) s'
      | None => None
      end
  end.

(** A non-empty run of decimal digits. *)
Definition numeral (s : string) : option Z :=
  match s with
  | EmptyString => None
  | _ => digits 0 s
  end.

(** Days from 1970-01-01 to the given day of the proleptic Gregorian
    calendar (months count from 1). *)
Definition days_from_civil (y m d : Z) : Z :=
  let y' := if m <=? 2 then y - 1 else y in
  let era := y' / 400 in
  let yoe := y' - era * 400 in
  let mp := (m + 9) mod 12 in
  let doy := (153 * mp + 2) / 5 + d - 1 in
  let doe := yoe * 365 + yoe / 4 - yoe / 100 + doy in
  era * 146097 + doe - 719468.

Definition msPerDay : Z := 86400000.
Definition msPerMinute : Z := 60000.

(** Years 0 to 49 are 2000 to 2049, years 50 to 99 are 1950 to 1999. *)
Definition full_year (y : Z) : Z :=
  if y <=? 49 then y + 2000 else if y <=? 99 then y + 1900 else y.

(** The day of the numbers read in a date: month, day, year, or year,
    month, day when the first one is no day of a month; month in 1..12, day
    in 1..31, a day past the end of its month running into the next one. *)
Definition day_of (a b c : Z) : option Z :=
  let '(y, m, d) :=
    if (1 <=? a) && (a <=? 31) then (c, a, b) else (a, b, c) in
  if (1 <=? m) && (m <=? 12) && (1 <=? d) && (d <=? 31)
  then Some (days_from_civil (full_year y) m d * msPerDay)
  else None.

(** The day part, in milliseconds: one to three numbers between slashes or
    dashes, a missing one counting as 1. *)
Definition date_part (s : string) : option Z :=
  let pieces :=
    match JS.split "/" s with
    | [_] => JS.split "-" s
    | l => l
    end in
  match map numeral
            (filter (fun piece => negb (piece =? "")%string) pieces) with
  | [Some a] => day_of a 1 1
  | [Some a; Some b] => day_of a b 1
  | [Some a; Some b; Some c] => day_of a b c
  | _ => None
  end.

(** The time of day, in milliseconds: nothing, or hour in 0..23 and minute
    in 0..59, or 24:00. *)
Definition time_part (s : string) : option Z :=
  match s with
  | EmptyString => Some 0
  | _ =>
      match map numeral (JS.split ":" s) with
      | [Some h; Some mi] =>
          if (h <=? 23) && (mi <=? 59) || (h =? 24) && (mi =? 0)
          then Some ((h * 60 + mi) * msPerMinute)
          else None
      | _ => None
      end
  end.

(** A time value is at most 8.64e15 milliseconds away from the epoch. *)
Definition TimeClip (t : Z) : JS.Date :=
  if Z.abs t <=? 8640000000000000 then Some t else None.

Definition Date_new (s : string) : JS.Date :=
  match JS.split " " s with
  | [d] =>
      match date_part d with
      | Some day => TimeClip day
      | None => None
      end
  | [d; t] =>
      match date_part d, time_part t with
      | Some day, Some time => TimeClip (day + time)
      | _, _ => None
      end
  | _ => None
  end.

(** Year, month and day of the day that is [z] days from 1970-01-01. *)
Definition civil_from_days (z : Z) : Z * Z * Z :=
  let z' := z + 719468 in
  let era := z' / 146097 in
  let doe := z' - era * 146097 in
  let yoe := (doe - doe / 1460 + doe / 36524 - doe / 146096) / 365 in
  let doy := doe - (365 * yoe + yoe / 4 - yoe / 100) in
  let mp := (5 * doy + 2) / 153 in
  let d := doy - (153 * mp + 2) / 5 + 1 in
  let m := if mp <? 10 then mp + 3 else mp - 9 in
  let y := yoe + era * 400 in
  (if m <=? 2 then y + 1 else y, m, d).

Definition two_digits (n : Z) : string :=
  String (ascii_of_nat (48 + Z.to_nat (n / 10)))
    (String (ascii_of_nat (48 + Z.to_nat (n mod 10))) EmptyString).

(** The text of a time value in the one pattern of the page,
    [dd/MM/yyyy - HH:mm], for the years 1 to 9999. *)
Definition format_text (t : Z) (formatStr : string) : string :=
  let '(y, m, d) := civil_from_days (t / msPerDay) in
  let minutes := (t mod msPerDay) / msPerMinute in
  (two_digits d ++ "/" ++ two_digits m ++ "/"
   ++ two_digits (y / 100) ++ two_digits (y mod 100)
   ++ " - " ++ two_digits (minutes / 60) ++ ":"
   ++ two_digits (minutes mod 60))%string.

End Host.

(** ** Vocabulary of the specification *)

(** [c] does not occur in [s]. *)
Fixpoint free_of (c : ascii) (s : string) : bool :=
  match s with
  | EmptyString => true
  | String c' s' => negb (Ascii.eqb c' c) && free_of c s'
  end.

Module Written.

(** A calendar date as its three written components. *)
Record date : Type := mk {
  month : string;
  day : string;
  year : string
}.

(** No component holds a slash. *)
Definition well_formed (w : date) : bool :=
  free_of "/" (month w) && free_of "/" (day w) && free_of "/" (year w).

(** Month first, as in the US. *)
Definition US (w : date) : string :=
  month w ++ "/" ++ day w ++ "/" ++ year w.

(** Day first, as in Europe. *)
Definition Europe (w : date) : string :=
  day w ++ "/" ++ month w ++ "/" ++ year w.

End Written.

(** The signup is before the cutoff: both are dates, and the first is
    strictly earlier. *)
Definition Before (signup cutoff : JS.Date) : Prop :=
  exists s k : Z, signup = Some s /\ cutoff = Some k /\ (s < k)%Z.

(** The acquisition channels of the page. *)
Definition valid_Source (s : string) : Prop :=
  s = "phone" \/ s = "web app".

(** [a.join(sep)] for a separator of one character. *)
Fixpoint join (sep : ascii) (a : list string) : string :=
  match a with
  | [] => EmptyString
  | [piece] => piece
  | piece :: pieces => piece ++ String sep (join sep pieces)
  end.

(** The three dates of a record are dates for the host. *)
Definition valid_dates (Date_new : string -> JS.Date)
    (data : CustomerData.t) : Prop :=
  StandardCustomerData.SignupDate (parseCustomerInfo Date_new data) <> None
  /\ StandardCustomerData.InvestmentDate (parseCustomerInfo Date_new data)
     <> None
  /\ StandardCustomerData.RefundDate (parseCustomerInfo Date_new data)
     <> None.

(** ** Records to run the program on *)

Module Sample.

(** US, phone, signed up on January 1st 2019, refund three hours after
    the investment. *)
Definition us_phone : CustomerData.t :=
  {| CustomerData.Name := "Ann";
     CustomerData.Location := "US";
     CustomerData.SignupDate := "01/01/2019";
     CustomerData.Source := "phone";
     CustomerData.InvestmentDate := "01/10/2024";
     CustomerData.InvestmentTime := "10:00";
     CustomerData.RefundDate := "01/10/2024";
     CustomerData.RefundTime := "13:00" |}.

(** Europe, web app, signed up on March 15th 2021, refund fifteen hours
    after the investment. *)
Definition eu_web : CustomerData.t :=
  {| CustomerData.Name := "Bea";
     CustomerData.Location := "Europe";
     CustomerData.SignupDate := "15/03/2021";
     CustomerData.Source := "web app";
     CustomerData.InvestmentDate := "01/06/2024";
     CustomerData.InvestmentTime := "09:00";
     CustomerData.RefundDate := "02/06/2024";
     CustomerData.RefundTime := "00:00" |}.

(** [us_phone] with the refund asked exactly four hours after the
    investment. *)
Definition us_phone_at_limit : CustomerData.t :=
  {| CustomerData.Name := "Cal";
     CustomerData.Location := "US";
     CustomerData.SignupDate := "01/01/2019";
     CustomerData.Source := "phone";
     CustomerData.InvestmentDate := "01/10/2024";
     CustomerData.InvestmentTime := "10:00";
     CustomerData.RefundDate := "01/10/2024";
     CustomerData.RefundTime := "14:00" |}.

(** [us_phone] with the refund asked one hour before the investment. *)
Definition us_phone_early : CustomerData.t :=
  {| CustomerData.Name := "Dan";
     CustomerData.Location := "US";
     CustomerData.SignupDate := "01/01/2019";
     CustomerData.Source := "phone";
     CustomerData.InvestmentDate := "01/10/2024";
     CustomerData.InvestmentTime := "10:00";
     CustomerData.RefundDate := "01/10/2024";
     CustomerData.RefundTime := "09:00" |}.

(** [us_phone] with a refund time that is no time of day. *)
Definition us_phone_bad_time : CustomerData.t :=
  {| CustomerData.Name := "Eve";
     CustomerData.Location := "US";
     CustomerData.SignupDate := "01/01/2019";
     CustomerData.Source := "phone";
     CustomerData.InvestmentDate := "01/10/2024";
     CustomerData.InvestmentTime := "10:00";
     CustomerData.RefundDate := "01/10/2024";
     CustomerData.RefundTime := "99:99" |}.

(** Signed up on January 2nd 2020, the day of the cutoff. *)
Definition us_phone_cutoff_day : CustomerData.t :=
  {| CustomerData.Name := "Fay";
     CustomerData.Location := "US";
     CustomerData.SignupDate := "01/02/2020";
     CustomerData.Source := "phone";
     CustomerData.InvestmentDate := "01/10/2024";
     CustomerData.InvestmentTime := "10:00";
     CustomerData.RefundDate := "01/10/2024";
     CustomerData.RefundTime := "13:00" |}.

(** [eu_web] from an acquisition channel the page does not know. *)
Definition eu_mail : CustomerData.t :=
  CustomerData.with_Source "mail" eu_web.

(** [eu_web] from a place that is neither the US nor Europe. *)
Definition asia_web : CustomerData.t :=
  CustomerData.with_Location "Asia" eu_web.

(** What [evaluate] returns for [us_phone_at_limit] on [Host]: four hours
    elapsed, a window of four hours, valid. *)
Definition us_phone_at_limit_result : Evaluated.t :=
  {| Evaluated.Name := "Cal";
     Evaluated.Location := "US";
     Evaluated.SignupDate := Some 1546300800000%Z;
     Evaluated.Source := "phone";
     Evaluated.InvestmentDate := Some 1704880800000%Z;
     Evaluated.InvestmentTime := "10:00";
     Evaluated.RefundDate := Some 1704895200000%Z;
     Evaluated.RefundTime := "14:00";
     Evaluated.requestTiming := JS.Num (14400000 # 3600000);
     Evaluated.refundPeriod := JS.Num 4;
     Evaluated.isRequestValid := true |}.

(** What [evaluate] returns for [us_phone_early] on [Host]: minus one hour
    elapsed, valid. *)
Definition us_phone_early_result : Evaluated.t :=
  {| Evaluated.Name := "Dan";
     Evaluated.Location := "US";
     Evaluated.SignupDate := Some 1546300800000%Z;
     Evaluated.Source := "phone";
     Evaluated.InvestmentDate := Some 1704880800000%Z;
     Evaluated.InvestmentTime := "10:00";
     Evaluated.RefundDate := Some 1704877200000%Z;
     Evaluated.RefundTime := "09:00";
     Evaluated.requestTiming := JS.Num (-3600000 # 3600000);
     Evaluated.refundPeriod := JS.Num 4;
     Evaluated.isRequestValid := true |}.

(** What [evaluate] returns for [asia_web] on [Host]: the dates are read day
    first, as those of [eu_web]. *)
Definition asia_web_result : Evaluated.t :=
  {| Evaluated.Name := "Bea";
     Evaluated.Location := "Asia";
     Evaluated.SignupDate := Some 1615766400000%Z;
     Evaluated.Source := "web app";
     Evaluated.InvestmentDate := Some 1717232400000%Z;
     Evaluated.InvestmentTime := "09:00";
     Evaluated.RefundDate := Some 1717286400000%Z;
     Evaluated.RefundTime := "00:00";
     Evaluated.requestTiming := JS.Num (54000000 # 3600000);
     Evaluated.refundPeriod := JS.Num 16;
     Evaluated.isRequestValid := true |}.

(** March 15th 2021 and June 1st 2024, component by component. *)
Definition march_15_2021 : Written.date :=
  {| Written.month := "03"; Written.day := "15"; Written.year := "2021" |}.

Definition june_1_2024 : Written.date :=
  {| Written.month := "06"; Written.day := "01"; Written.year := "2024" |}.

Definition june_2_2024 : Written.date :=
  {| Written.month := "06"; Written.day := "02"; Written.year := "2024" |}.

(** [us_phone] with a signup date that holds no slash. *)
Definition us_phone_bad_signup : CustomerData.t :=
  {| CustomerData.Name := "Gus";
     CustomerData.Location := "US";
     CustomerData.SignupDate := "yesterday";
     CustomerData.Source := "phone";
     CustomerData.InvestmentDate := "01/10/2024";
     CustomerData.InvestmentTime := "10:00";
     CustomerData.RefundDate := "01/10/2024";
     CustomerData.RefundTime := "13:00" |}.

(** [us_phone] with the refund asked four and a half hours after the
    investment. *)
Definition us_phone_late : CustomerData.t :=
  {| CustomerData.Name := "Hal";
     CustomerData.Location := "US";
     CustomerData.SignupDate := "01/01/2019";
     CustomerData.Source := "phone";
     CustomerData.InvestmentDate := "01/10/2024";
     CustomerData.InvestmentTime := "10:00";
     CustomerData.RefundDate := "01/10/2024";
     CustomerData.RefundTime := "14:30" |}.

(** What [evaluate] returns for [us_phone] on [Host]. *)
Definition us_phone_result : Evaluated.t :=
  {| Evaluated.Name := "Ann";
     Evaluated.Location := "US";
     Evaluated.SignupDate := Some 1546300800000%Z;
     Evaluated.Source := "phone";
     Evaluated.InvestmentDate := Some 1704880800000%Z;
     Evaluated.InvestmentTime := "10:00";
     Evaluated.RefundDate := Some 1704891600000%Z;
     Evaluated.RefundTime := "13:00";
     Evaluated.requestTiming := JS.Num (10800000 # 3600000);
     Evaluated.refundPeriod := JS.Num 4;
     Evaluated.isRequestValid := true |}.

(** What [evaluate] returns for [us_phone_late] on [Host]. *)
Definition us_phone_late_result : Evaluated.t :=
  {| Evaluated.Name := "Hal";
     Evaluated.Location := "US";
     Evaluated.SignupDate := Some 1546300800000%Z;
     Evaluated.Source := "phone";
     Evaluated.InvestmentDate := Some 1704880800000%Z;
     Evaluated.InvestmentTime := "10:00";
     Evaluated.RefundDate := Some 1704897000000%Z;
     Evaluated.RefundTime := "14:30";
     Evaluated.requestTiming := JS.Num (16200000 # 3600000);
     Evaluated.refundPeriod := JS.Num 4;
     Evaluated.isRequestValid := false |}.

(** The row of [us_phone_late] on [Host]: four hours shown, a window of
    four hours, and yet invalid. *)
Definition us_phone_late_row : Row.t :=
  {| Row.key := "Hal";
     Row.className :=
       "bg-red-200 transition-colors duration-300 hover:bg-gray-100";
     Row.Name := "Hal";
     Row.Location := "US";
     Row.SignupDate := "01/01/2019 - 00:00";
     Row.Source := "phone";
     Row.InvestmentDate := "10/01/2024 - 10:00";
     Row.RefundDate := "10/01/2024 - 14:30";
     Row.RefundHours := JS.Num 4;
     Row.RefundPeriod := JS.Num 4;
     Row.TOS := "Old";
     Row.RequestStatus := "Invalid";
     Row.RequestStatusClass := "text-red-600" |}.

(** What [evaluate] returns for [eu_web] on [Host]. *)
Definition eu_web_result : Evaluated.t :=
  {| Evaluated.Name := "Bea";
     Evaluated.Location := "Europe";
     Evaluated.SignupDate := Some 1615766400000%Z;
     Evaluated.Source := "web app";
     Evaluated.InvestmentDate := Some 1717232400000%Z;
     Evaluated.InvestmentTime := "09:00";
     Evaluated.RefundDate := Some 1717286400000%Z;
     Evaluated.RefundTime := "00:00";
     Evaluated.requestTiming := JS.Num (54000000 # 3600000);
     Evaluated.refundPeriod := JS.Num 16;
     Evaluated.isRequestValid := true |}.

(** What [evaluate] returns for [eu_web] with the Source phone: fifteen
    hours against a window of eight. *)
Definition eu_phone_result : Evaluated.t :=
  {| Evaluated.Name := "Bea";
     Evaluated.Location := "Europe";
     Evaluated.SignupDate := Some 1615766400000%Z;
     Evaluated.Source := "phone";
     Evaluated.InvestmentDate := Some 1717232400000%Z;
     Evaluated.InvestmentTime := "09:00";
     Evaluated.RefundDate := Some 1717286400000%Z;
     Evaluated.RefundTime := "00:00";
     Evaluated.requestTiming := JS.Num (54000000 # 3600000);
     Evaluated.refundPeriod := JS.Num 8;
     Evaluated.isRequestValid := false |}.

(** [us_phone] with the refund asked four hours and one minute after the
    investment. *)
Definition us_phone_1401 : CustomerData.t :=
  {| CustomerData.Name := "Ida";
     CustomerData.Location := "US";
     CustomerData.SignupDate := "01/01/2019";
     CustomerData.Source := "phone";
     CustomerData.InvestmentDate := "01/10/2024";
     CustomerData.InvestmentTime := "10:00";
     CustomerData.RefundDate := "01/10/2024";
     CustomerData.RefundTime := "14:01" |}.

(** What [Binary64.evaluate] returns for [us_phone_1401] on [Host]: the
    elapsed time is 4522364625817873 / 2^50, the binary64 number written
    4.016666666666667, and not 241/60. *)
Definition us_phone_1401_result : Evaluated.t :=
  {| Evaluated.Name := "Ida";
     Evaluated.Location := "US";
     Evaluated.SignupDate := Some 1546300800000%Z;
     Evaluated.Source := "phone";
     Evaluated.InvestmentDate := Some 1704880800000%Z;
     Evaluated.InvestmentTime := "10:00";
     Evaluated.RefundDate := Some 1704895260000%Z;
     Evaluated.RefundTime := "14:01";
     Evaluated.requestTiming :=
       JS.Num (4522364625817873 # 1125899906842624);
     Evaluated.refundPeriod := JS.Num 4;
     Evaluated.isRequestValid := false |}.

(** What [Binary64.evaluate] returns for [us_phone_early] on [Host]. *)
Definition us_phone_early_binary64 : Evaluated.t :=
  {| Evaluated.Name := "Dan";
     Evaluated.Location := "US";
     Evaluated.SignupDate := Some 1546300800000%Z;
     Evaluated.Source := "phone";
     Evaluated.InvestmentDate := Some 1704880800000%Z;
     Evaluated.InvestmentTime := "10:00";
     Evaluated.RefundDate := Some 1704877200000%Z;
     Evaluated.RefundTime := "09:00";
     Evaluated.requestTiming := JS.Num (-4503599627370496 # 4503599627370496);
     Evaluated.refundPeriod := JS.Num 4;
     Evaluated.isRequestValid := true |}.

End Sample.

(** ** Splitting and indexing *)

Lemma split_free (sep : ascii) (s : string) :
  free_of sep s = true -> JS.split sep s = [s].
Proof.
  induction s as [|c s IH]; simpl; intros H; [reflexivity|].
  apply andb_true_iff in H as [Hc Hs].
  apply negb_true_iff in Hc. rewrite Hc, (IH Hs). reflexivity.
Qed.

Lemma split_app (sep : ascii) (a b : string) :
  free_of sep a = true ->
  JS.split sep (a ++ String sep b) = a :: JS.split sep b.
Proof.
  induction a as [|c a IH]; simpl; intros H.
  - rewrite Ascii.eqb_refl. reflexivity.
  - apply andb_true_iff in H as [Hc Ha].
    apply negb_true_iff in Hc. rewrite Hc, (IH Ha). reflexivity.
Qed.

Lemma split_three (a b c : string) :
  free_of "/" a = true -> free_of "/" b = true -> free_of "/" c = true ->
  JS.split "/" (a ++ "/" ++ b ++ "/" ++ c) = [a; b; c].
Proof.
  intros Ha Hb Hc.
  change (a ++ "/" ++ b ++ "/" ++ c)
    with (a ++ String "/" (b ++ String "/" c)).
  rewrite (split_app _ _ _ Ha), (split_app _ _ _ Hb), (split_free _ _ Hc).
  reflexivity.
Qed.

Lemma split_US (w : Written.date) :
  Written.well_formed w = true ->
  JS.split "/" (Written.US w)
  = [Written.month w; Written.day w; Written.year w].
Proof.
  unfold Written.well_formed, Written.US. intros H.
  apply andb_true_iff in H as [H Hy]. apply andb_true_iff in H as [Hm Hd].
  now apply split_three.
Qed.

Lemma split_Europe (w : Written.date) :
  Written.well_formed w = true ->
  JS.split "/" (Written.Europe w)
  = [Written.day w; Written.month w; Written.year w].
Proof.
  unfold Written.well_formed, Written.Europe. intros H.
  apply andb_true_iff in H as [H Hy]. apply andb_true_iff in H as [Hm Hd].
  now apply split_three.
Qed.

(** ** Numbers *)

Lemma leb_le (x y : JS.number) : JS.leb x y = true <-> JS.le x y.
Proof.
  destruct x as [|a], y as [|b]; simpl; split; intros H;
    try discriminate; try (inversion H; fail).
  - constructor. now apply Qle_bool_iff.
  - inversion H; subst. now apply Qle_bool_iff.
Qed.

Lemma eq_le (x y : JS.number) : JS.eq x y -> JS.le x y.
Proof.
  intros [a b H]. constructor. rewrite H. apply Qle_refl.
Qed.

Lemma isBefore_Before (signup cutoff : JS.Date) :
  isBefore signup cutoff = true <-> Before signup cutoff.
Proof.
  unfold isBefore, Before.
  destruct signup as [s|], cutoff as [k|]; simpl.
  - rewrite negb_true_iff, <- not_true_iff_false, Qle_bool_iff.
    rewrite <- Zle_Qle. split.
    + intros H. exists s, k. repeat split. lia.
    + intros (s' & k' & Es & Ek & H). inversion Es; inversion Ek; subst. lia.
  - split; [discriminate|]. intros (s' & k' & _ & E & _). discriminate.
  - split; [discriminate|]. intros (s' & k' & E & _). discriminate.
  - split; [discriminate|]. intros (s' & k' & E & _). discriminate.
Qed.

Lemma isBefore_not_Before (signup cutoff : JS.Date) :
  isBefore signup cutoff = false <-> ~ Before signup cutoff.
Proof.
  rewrite <- isBefore_Before. symmetry. apply not_true_iff_false.
Qed.

(** ** [map] over an array *)

Section Array_map.

Context {A B : Type}.
Variable f : A -> JS.completion B.

(** When no call throws, [map] returns the results in the order of the
    elements. *)
Lemma Array_map_Return (a : list A) :
  Forall (fun x => exists y, f x = JS.Return y) a ->
  exists out : list B,
    JS.Array_map f a = JS.Return out
    /\ Forall2 (fun x y => f x = JS.Return y) a out.
Proof.
  induction 1 as [|x a [y Hy] _ (out & Hout & Hall)]; simpl.
  - exists []. split; [reflexivity|constructor].
  - exists (y :: out). rewrite Hy, Hout. simpl.
    split; [reflexivity|]. now constructor.
Qed.

(** When some call throws, and [e] is all [f] ever throws, [map] throws [e]
    and returns no array. *)
Lemma Array_map_Throw (e : JS.exn) (a : list A) :
  (forall x e', f x = JS.Throw e' -> e' = e) ->
  Exists (fun x => f x = JS.Throw e) a ->
  JS.Array_map f a = JS.Throw e.
Proof.
  intros Only. induction a as [|x a IH]; intros Ex; [inversion Ex|].
  simpl. destruct (f x) as [y|e'] eqn:Hx; simpl.
  - inversion Ex as [? ? Hhd|? ? Htl]; subst; [congruence|].
    now rewrite (IH Htl).
  - now rewrite (Only x e' Hx).
Qed.

End Array_map.

(** ** Properties of the evaluator, for every host *)

Section Properties.

Variable Date_new : string -> JS.Date.

(** What [evaluate] returns, field by field. *)
Lemma evaluate_Return (data : CustomerData.t) (r : Evaluated.t) :
  evaluate Date_new data = JS.Return r ->
  calculateRefundPeriod Date_new (parseCustomerInfo Date_new data)
  = JS.Return (Evaluated.refundPeriod r)
  /\ Evaluated.requestTiming r
     = calculateRequestTiming (parseCustomerInfo Date_new data)
  /\ Evaluated.isRequestValid r
     = JS.leb (Evaluated.requestTiming r) (Evaluated.refundPeriod r)
  /\ Evaluated.SignupDate r
     = StandardCustomerData.SignupDate (parseCustomerInfo Date_new data)
  /\ Evaluated.InvestmentDate r
     = StandardCustomerData.InvestmentDate (parseCustomerInfo Date_new data)
  /\ Evaluated.RefundDate r
     = StandardCustomerData.RefundDate (parseCustomerInfo Date_new data).
Proof.
  unfold evaluate.
  destruct (calculateRefundPeriod Date_new (parseCustomerInfo Date_new data))
    as [p|e]; simpl; intros H; [|discriminate].
  injection H as <-. simpl. repeat split.
Qed.

(** [evaluate] throws exactly what [calculateRefundPeriod] throws. *)
Lemma evaluate_Throw (data : CustomerData.t) (e : JS.exn) :
  evaluate Date_new data = JS.Throw e <->
  calculateRefundPeriod Date_new (parseCustomerInfo Date_new data) = JS.Throw e.
Proof.
  unfold evaluate.
  destruct (calculateRefundPeriod Date_new (parseCustomerInfo Date_new data))
    as [p|e']; simpl; split; intros H; try discriminate; congruence.
Qed.

Lemma calculateRefundPeriod_phone (customer : StandardCustomerData.t) :
  StandardCustomerData.Source customer = "phone" ->
  calculateRefundPeriod Date_new customer
  = JS.Return
      (if isBefore (StandardCustomerData.SignupDate customer)
                   (Date_new "01-02-2020")
       then JS.of_Z 4 else JS.of_Z 8).
Proof.
  intros E. unfold calculateRefundPeriod. rewrite E. reflexivity.
Qed.

Lemma calculateRefundPeriod_web_app (customer : StandardCustomerData.t) :
  StandardCustomerData.Source customer = "web app" ->
  calculateRefundPeriod Date_new customer
  = JS.Return
      (if isBefore (StandardCustomerData.SignupDate customer)
                   (Date_new "01-02-2020")
       then JS.of_Z 8 else JS.of_Z 16).
Proof.
  intros E. unfold calculateRefundPeriod. rewrite E. reflexivity.
Qed.

Lemma calculateRefundPeriod_other (customer : StandardCustomerData.t) :
  ~ valid_Source (StandardCustomerData.Source customer) ->
  calculateRefundPeriod Date_new customer
  = JS.Throw (JS.Error "Invalid Source").
Proof.
  intros N. unfold calculateRefundPeriod.
  destruct (String.eqb_spec (StandardCustomerData.Source customer) "phone")
    as [E|_]; [exfalso; apply N; now left|].
  destruct (String.eqb_spec (StandardCustomerData.Source customer) "web app")
    as [E|_]; [exfalso; apply N; now right|].
  reflexivity.
Qed.

Lemma valid_Source_dec (s : string) : valid_Source s \/ ~ valid_Source s.
Proof.
  unfold valid_Source.
  destruct (string_dec s "phone"); [now left; left|].
  destruct (string_dec s "web app"); [now left; right|].
  right. intros [E|E]; contradiction.
Qed.

Lemma calculateRefundPeriod_values
    (customer : StandardCustomerData.t) (p : JS.number) :
  calculateRefundPeriod Date_new customer = JS.Return p ->
  p = JS.of_Z 4 \/ p = JS.of_Z 8 \/ p = JS.of_Z 16.
Proof.
  unfold calculateRefundPeriod.
  destruct (StandardCustomerData.Source customer =? "phone");
    [|destruct (StandardCustomerData.Source customer =? "web app")];
    [| |discriminate];
    destruct (isBefore _ _); intros H; injection H as <-; auto.
Qed.

Lemma calculateRefundPeriod_valid (customer : StandardCustomerData.t) :
  valid_Source (StandardCustomerData.Source customer) ->
  exists p : JS.number, calculateRefundPeriod Date_new customer = JS.Return p.
Proof.
  intros [E|E].
  - rewrite calculateRefundPeriod_phone by assumption. eauto.
  - rewrite calculateRefundPeriod_web_app by assumption. eauto.
Qed.

Lemma evaluate_valid (data : CustomerData.t) :
  valid_Source (CustomerData.Source data) ->
  exists r : Evaluated.t, evaluate Date_new data = JS.Return r.
Proof.
  intros V. unfold evaluate.
  destruct (calculateRefundPeriod_valid (parseCustomerInfo Date_new data) V)
    as [p ->].
  simpl. eauto.
Qed.

Lemma evaluate_invalid (data : CustomerData.t) :
  ~ valid_Source (CustomerData.Source data) ->
  evaluate Date_new data = JS.Throw (JS.Error "Invalid Source").
Proof.
  intros N. apply evaluate_Throw. now apply calculateRefundPeriod_other.
Qed.

(** The elapsed time between two dates that are both valid. *)
Lemma calculateRequestTiming_dates
    (customer : StandardCustomerData.t) (i r : Z) :
  StandardCustomerData.InvestmentDate customer = Some i ->
  StandardCustomerData.RefundDate customer = Some r ->
  calculateRequestTiming customer
  = JS.Num ((inject_Z r - inject_Z i)
            / (inject_Z 60 * inject_Z 60 * inject_Z 1000)).
Proof.
  intros Ei Er. unfold calculateRequestTiming. rewrite Ei, Er. reflexivity.
Qed.

(** The elapsed time is [NaN] as soon as one of the two dates is invalid. *)
Lemma calculateRequestTiming_invalid (customer : StandardCustomerData.t) :
  StandardCustomerData.InvestmentDate customer = None
  \/ StandardCustomerData.RefundDate customer = None ->
  calculateRequestTiming customer = JS.NaN.
Proof.
  unfold calculateRequestTiming. intros [E|E]; rewrite E.
  - destruct (StandardCustomerData.RefundDate customer); reflexivity.
  - reflexivity.
Qed.

Lemma hours_of_milliseconds (i r : Z) :
  ((inject_Z r - inject_Z i) / (inject_Z 60 * inject_Z 60 * inject_Z 1000)
   == inject_Z (r - i) / 3600000)%Q.
Proof.
  unfold Qeq, Qdiv, Qminus, Qplus, Qopp, Qmult, Qinv, inject_Z. simpl. lia.
Qed.

Lemma hours_negative (d : Z) : (inject_Z d / 3600000 < 0)%Q <-> (d < 0)%Z.
Proof.
  unfold Qlt, Qdiv, Qmult, Qinv, inject_Z. simpl. lia.
Qed.

Lemma hours_positive (d : Z) : (0 < inject_Z d / 3600000)%Q <-> (0 < d)%Z.
Proof.
  unfold Qlt, Qdiv, Qmult, Qinv, inject_Z. simpl. lia.
Qed.

(** C1: for every record that [evaluate] returns a result for,
    [isRequestValid] is true exactly when [requestTiming] is less than or
    equal to [refundPeriod]; in particular it is true when the two are
    equal. *)
Theorem C1_verdict_is_non_strict_comparison
    (data : CustomerData.t) (r : Evaluated.t) :
  evaluate Date_new data = JS.Return r ->
  (Evaluated.isRequestValid r = true
   <-> JS.le (Evaluated.requestTiming r) (Evaluated.refundPeriod r))
  /\ (JS.eq (Evaluated.requestTiming r) (Evaluated.refundPeriod r)
      -> Evaluated.isRequestValid r = true).
Proof.
  intros H. apply evaluate_Return in H as (_ & _ & Hv & _).
  rewrite Hv. split.
  - apply leb_le.
  - intros E. apply leb_le, eq_le, E.
Qed.

(** C2: for every record whose Source is valid, [calculateRefundPeriod]
    follows the table: phone gives 4 when the signup is before the cutoff
    and 8 otherwise, web app gives 8 when the signup is before the cutoff
    and 16 otherwise; whatever it returns is 4, 8 or 16. *)
Theorem C2_refund_period_table (customer : StandardCustomerData.t) :
  let signup := StandardCustomerData.SignupDate customer in
  let cutoff := Date_new "01-02-2020" in
  (StandardCustomerData.Source customer = "phone" ->
     (Before signup cutoff ->
        calculateRefundPeriod Date_new customer = JS.Return (JS.of_Z 4))
     /\ (~ Before signup cutoff ->
        calculateRefundPeriod Date_new customer = JS.Return (JS.of_Z 8)))
  /\ (StandardCustomerData.Source customer = "web app" ->
     (Before signup cutoff ->
        calculateRefundPeriod Date_new customer = JS.Return (JS.of_Z 8))
     /\ (~ Before signup cutoff ->
        calculateRefundPeriod Date_new customer = JS.Return (JS.of_Z 16)))
  /\ (forall p : JS.number,
        calculateRefundPeriod Date_new customer = JS.Return p ->
        p = JS.of_Z 4 \/ p = JS.of_Z 8 \/ p = JS.of_Z 16).
Proof.
  intros signup cutoff. repeat split.
  - intros B. apply isBefore_Before in B.
    rewrite calculateRefundPeriod_phone by assumption.
    fold signup cutoff. now rewrite B.
  - intros B. apply isBefore_not_Before in B.
    rewrite calculateRefundPeriod_phone by assumption.
    fold signup cutoff. now rewrite B.
  - intros B. apply isBefore_Before in B.
    rewrite calculateRefundPeriod_web_app by assumption.
    fold signup cutoff. now rewrite B.
  - intros B. apply isBefore_not_Before in B.
    rewrite calculateRefundPeriod_web_app by assumption.
    fold signup cutoff. now rewrite B.
  - apply calculateRefundPeriod_values.
Qed.

(** [evaluate] throws nothing but the error of [calculateRefundPeriod], and
    only on a Source that is not valid. *)
Lemma evaluate_Throw_only (data : CustomerData.t) (e : JS.exn) :
  evaluate Date_new data = JS.Throw e ->
  e = JS.Error "Invalid Source" /\ ~ valid_Source (CustomerData.Source data).
Proof.
  intros H. destruct (valid_Source_dec (CustomerData.Source data)) as [V|N].
  - destruct (evaluate_valid data V) as [r Hr]. congruence.
  - split; [|exact N]. rewrite (evaluate_invalid data N) in H. congruence.
Qed.

(** The three dates of [parseCustomerInfo], by the test on the Location. *)
Lemma parseCustomerInfo_dates (data : CustomerData.t) :
  StandardCustomerData.SignupDate (parseCustomerInfo Date_new data)
  = Date_new (dateFormat (CustomerData.Location data =? "US")
                (JS.split "/" (CustomerData.SignupDate data)))
  /\ StandardCustomerData.InvestmentDate (parseCustomerInfo Date_new data)
     = Date_new (dateFormat (CustomerData.Location data =? "US")
                   (JS.split "/" (CustomerData.InvestmentDate data))
                 ++ " " ++ CustomerData.InvestmentTime data)
  /\ StandardCustomerData.RefundDate (parseCustomerInfo Date_new data)
     = Date_new (dateFormat (CustomerData.Location data =? "US")
                   (JS.split "/" (CustomerData.RefundDate data))
                 ++ " " ++ CustomerData.RefundTime data).
Proof.
  repeat split.
Qed.

(** With a well-formed date in the US style and a US location,
    [dateFormat] gives the date back. *)
Lemma dateFormat_US (w : Written.date) :
  Written.well_formed w = true ->
  dateFormat true (JS.split "/" (Written.US w)) = Written.US w.
Proof.
  intros H. rewrite (split_US w H). reflexivity.
Qed.

(** With a well-formed date in the European style and another location,
    [dateFormat] gives the date in the US style. *)
Lemma dateFormat_Europe (w : Written.date) :
  Written.well_formed w = true ->
  dateFormat false (JS.split "/" (Written.Europe w)) = Written.US w.
Proof.
  intros H. rewrite (split_Europe w H). reflexivity.
Qed.

(** C6: two records that hold the same three dates, one in the US style
    with Location US and one in the European style with Location Europe,
    and the same times of day, are normalised to the same three dates. *)
Theorem C6_cross_locale_consistency
    (signup investment refund : Written.date)
    (name name' source source' investmentTime refundTime : string) :
  Written.well_formed signup = true ->
  Written.well_formed investment = true ->
  Written.well_formed refund = true ->
  let us :=
    parseCustomerInfo Date_new
      (CustomerData.mk name "US" (Written.US signup) source
         (Written.US investment) investmentTime
         (Written.US refund) refundTime) in
  let europe :=
    parseCustomerInfo Date_new
      (CustomerData.mk name' "Europe" (Written.Europe signup) source'
         (Written.Europe investment) investmentTime
         (Written.Europe refund) refundTime) in
  StandardCustomerData.SignupDate us = StandardCustomerData.SignupDate europe
  /\ StandardCustomerData.InvestmentDate us
     = StandardCustomerData.InvestmentDate europe
  /\ StandardCustomerData.RefundDate us
     = StandardCustomerData.RefundDate europe
  /\ calculateRequestTiming us = calculateRequestTiming europe.
Proof.
  intros Hs Hi Hr us europe.
  assert (E : StandardCustomerData.SignupDate us
              = StandardCustomerData.SignupDate europe
              /\ StandardCustomerData.InvestmentDate us
                 = StandardCustomerData.InvestmentDate europe
              /\ StandardCustomerData.RefundDate us
                 = StandardCustomerData.RefundDate europe).
  { unfold us, europe, parseCustomerInfo. cbn - [JS.split dateFormat].
    rewrite !dateFormat_US, !dateFormat_Europe by assumption.
    repeat split. }
  destruct E as (Es & Ei & Er). repeat split; try assumption.
  unfold calculateRequestTiming. now rewrite Ei, Er.
Qed.

(** C7, as the page has it: a Source that is neither phone nor web app makes
    [evaluate] throw the error Invalid Source instead of choosing a window;
    the error is not caught, so a batch that holds such a record throws it
    and returns no result at all; a batch whose Sources are all valid returns
    one result per record, in the order of the records. *)
Theorem C7_invalid_source_aborts_the_batch :
  (forall data : CustomerData.t,
      ~ valid_Source (CustomerData.Source data) ->
      evaluate Date_new data = JS.Throw (JS.Error "Invalid Source"))
  /\ (forall batch : list CustomerData.t,
        Exists (fun c => ~ valid_Source (CustomerData.Source c)) batch ->
        customerData Date_new batch = JS.Throw (JS.Error "Invalid Source"))
  /\ (forall batch : list CustomerData.t,
        Forall (fun c => valid_Source (CustomerData.Source c)) batch ->
        exists out : list Evaluated.t,
          customerData Date_new batch = JS.Return out
          /\ Forall2 (fun c r => evaluate Date_new c = JS.Return r) batch out).
Proof.
  split; [exact evaluate_invalid|]. split.
  - intros batch Ex. apply Array_map_Throw.
    + intros x e' H. now apply evaluate_Throw_only in H.
    + revert Ex. apply Exists_impl. exact evaluate_invalid.
  - intros batch All. apply Array_map_Return.
    revert All. apply Forall_impl. exact evaluate_valid.
Qed.

(** C8, as the page has it: a Location other than US is no error; the record
    is normalised as a European one, the first two pieces of each date
    swapped, and [evaluate] returns a result whenever the Source is valid. *)
Theorem C8_other_locations_read_day_first (data : CustomerData.t) :
  CustomerData.Location data <> "US" ->
  (forall (a b c : string) (rest : list string),
      JS.split "/" (CustomerData.SignupDate data) = a :: b :: c :: rest ->
      StandardCustomerData.SignupDate (parseCustomerInfo Date_new data)
      = Date_new (b ++ "/" ++ a ++ "/" ++ c))
  /\ (forall (a b c : string) (rest : list string),
        JS.split "/" (CustomerData.InvestmentDate data)
        = a :: b :: c :: rest ->
        StandardCustomerData.InvestmentDate (parseCustomerInfo Date_new data)
        = Date_new ((b ++ "/" ++ a ++ "/" ++ c)
                    ++ " " ++ CustomerData.InvestmentTime data))
  /\ (forall (a b c : string) (rest : list string),
        JS.split "/" (CustomerData.RefundDate data) = a :: b :: c :: rest ->
        StandardCustomerData.RefundDate (parseCustomerInfo Date_new data)
        = Date_new ((b ++ "/" ++ a ++ "/" ++ c)
                    ++ " " ++ CustomerData.RefundTime data))
  /\ StandardCustomerData.SignupDate (parseCustomerInfo Date_new data)
     = StandardCustomerData.SignupDate
         (parseCustomerInfo Date_new
            (CustomerData.with_Location "Europe" data))
  /\ StandardCustomerData.InvestmentDate (parseCustomerInfo Date_new data)
     = StandardCustomerData.InvestmentDate
         (parseCustomerInfo Date_new
            (CustomerData.with_Location "Europe" data))
  /\ StandardCustomerData.RefundDate (parseCustomerInfo Date_new data)
     = StandardCustomerData.RefundDate
         (parseCustomerInfo Date_new
            (CustomerData.with_Location "Europe" data))
  /\ (valid_Source (CustomerData.Source data) ->
      exists r : Evaluated.t, evaluate Date_new data = JS.Return r)
  /\ (forall e : JS.exn,
        evaluate Date_new data = JS.Throw e ->
        ~ valid_Source (CustomerData.Source data)).
Proof.
  intros N. apply String.eqb_neq in N.
  destruct (parseCustomerInfo_dates data) as (Hs & Hi & Hr).
  rewrite N in Hs, Hi, Hr.
  repeat split.
  - intros a b c rest E. now rewrite Hs, E.
  - intros a b c rest E. now rewrite Hi, E.
  - intros a b c rest E. now rewrite Hr, E.
  - rewrite Hs. reflexivity.
  - rewrite Hi. reflexivity.
  - rewrite Hr. reflexivity.
  - apply evaluate_valid.
  - intros e H. now apply evaluate_Throw_only in H.
Qed.

(** C9: normalisation and the elapsed time have no failing step; when the
    investment or the refund string is not a date for the host, the elapsed
    time is [NaN], and [evaluate] throws nothing because of it: with a valid
    Source it returns a result whose [isRequestValid] is false, and the only
    thing it ever throws is the error of an invalid Source. *)
Theorem C9_invalid_dates_do_not_throw (data : CustomerData.t) :
  StandardCustomerData.InvestmentDate (parseCustomerInfo Date_new data) = None
  \/ StandardCustomerData.RefundDate (parseCustomerInfo Date_new data) = None ->
  calculateRequestTiming (parseCustomerInfo Date_new data) = JS.NaN
  /\ (forall r : Evaluated.t,
        evaluate Date_new data = JS.Return r ->
        Evaluated.requestTiming r = JS.NaN
        /\ Evaluated.isRequestValid r = false)
  /\ (valid_Source (CustomerData.Source data) ->
      exists r : Evaluated.t,
        evaluate Date_new data = JS.Return r
        /\ Evaluated.isRequestValid r = false)
  /\ (forall e : JS.exn,
        evaluate Date_new data = JS.Throw e ->
        e = JS.Error "Invalid Source"
        /\ ~ valid_Source (CustomerData.Source data)).
Proof.
  intros Bad. pose proof (calculateRequestTiming_invalid _ Bad) as T.
  assert (R : forall r : Evaluated.t,
             evaluate Date_new data = JS.Return r ->
             Evaluated.requestTiming r = JS.NaN
             /\ Evaluated.isRequestValid r = false).
  { intros r H. apply evaluate_Return in H as (_ & Ht & Hv & _).
    rewrite Hv, Ht, T. split; reflexivity. }
  split; [exact T|]. split; [exact R|]. split.
  - intros V. destruct (evaluate_valid data V) as [r Hr].
    exists r. split; [exact Hr|]. now apply R.
  - intros e. apply evaluate_Throw_only.
Qed.

(** C10: [calculateRefundPeriod] returns a window exactly for the Sources
    phone and web app (with a space); for every other string, the
    hyphenated web-app among them, it throws the error Invalid Source. *)
Theorem C10_accepted_sources (customer : StandardCustomerData.t) :
  ((exists p : JS.number, calculateRefundPeriod Date_new customer = JS.Return p)
   <-> StandardCustomerData.Source customer = "phone"
       \/ StandardCustomerData.Source customer = "web app")
  /\ (~ (StandardCustomerData.Source customer = "phone"
         \/ StandardCustomerData.Source customer = "web app") ->
      calculateRefundPeriod Date_new customer
      = JS.Throw (JS.Error "Invalid Source"))
  /\ (StandardCustomerData.Source customer = "web-app" ->
      calculateRefundPeriod Date_new customer
      = JS.Throw (JS.Error "Invalid Source")).
Proof.
  split; [split|split].
  - intros [p Hp].
    destruct (valid_Source_dec (StandardCustomerData.Source customer))
      as [V|N]; [exact V|].
    rewrite (calculateRefundPeriod_other customer N) in Hp. discriminate.
  - apply calculateRefundPeriod_valid.
  - apply calculateRefundPeriod_other.
  - intros E. apply calculateRefundPeriod_other. rewrite E.
    intros [H|H]; discriminate.
Qed.

End Properties.

(** ** Properties that name the host *)

(** On [Host], a date without a time of day is that day at 00:00. *)
Lemma Host_date_alone_is_midnight (d : string) :
  free_of " " d = true ->
  Host.Date_new (d ++ " 00:00") = Host.Date_new d.
Proof.
  intros H. unfold Host.Date_new.
  change (d ++ " 00:00") with (d ++ String " " "00:00").
  rewrite (split_app " " d "00:00" H), (split_free " " d H).
  change (JS.split " " "00:00") with ["00:00"].
  destruct (Host.date_part d) as [day|]; [|reflexivity].
  replace (Host.time_part "00:00") with (Some 0%Z) by reflexivity.
  now rewrite Z.add_0_r.
Qed.

(** C3: [parseCustomerInfo] splits each of the three dates on the slash and
    takes the first three pieces; with Location US it puts them back in the
    same order, with Location Europe it swaps the first two, so that a date
    written day first reaches the host month first; the investment and
    refund dates are built from that string, a space and the time of day,
    the signup date from that string alone, which the host reads as the day
    at 00:00. *)
Theorem C3_normalizer (Date_new : string -> JS.Date)
    (customer : CustomerData.t) :
  (forall (a b c : string) (rest : list string),
      JS.split "/" (CustomerData.SignupDate customer) = a :: b :: c :: rest ->
      (CustomerData.Location customer = "US" ->
       StandardCustomerData.SignupDate (parseCustomerInfo Date_new customer)
       = Date_new (a ++ "/" ++ b ++ "/" ++ c))
      /\ (CustomerData.Location customer = "Europe" ->
          StandardCustomerData.SignupDate
            (parseCustomerInfo Date_new customer)
          = Date_new (b ++ "/" ++ a ++ "/" ++ c)))
  /\ (forall (a b c : string) (rest : list string),
        JS.split "/" (CustomerData.InvestmentDate customer)
        = a :: b :: c :: rest ->
        (CustomerData.Location customer = "US" ->
         StandardCustomerData.InvestmentDate
           (parseCustomerInfo Date_new customer)
         = Date_new ((a ++ "/" ++ b ++ "/" ++ c)
                     ++ " " ++ CustomerData.InvestmentTime customer))
        /\ (CustomerData.Location customer = "Europe" ->
            StandardCustomerData.InvestmentDate
              (parseCustomerInfo Date_new customer)
            = Date_new ((b ++ "/" ++ a ++ "/" ++ c)
                        ++ " " ++ CustomerData.InvestmentTime customer)))
  /\ (forall (a b c : string) (rest : list string),
        JS.split "/" (CustomerData.RefundDate customer)
        = a :: b :: c :: rest ->
        (CustomerData.Location customer = "US" ->
         StandardCustomerData.RefundDate
           (parseCustomerInfo Date_new customer)
         = Date_new ((a ++ "/" ++ b ++ "/" ++ c)
                     ++ " " ++ CustomerData.RefundTime customer))
        /\ (CustomerData.Location customer = "Europe" ->
            StandardCustomerData.RefundDate
              (parseCustomerInfo Date_new customer)
            = Date_new ((b ++ "/" ++ a ++ "/" ++ c)
                        ++ " " ++ CustomerData.RefundTime customer)))
  /\ (forall w : Written.date,
        Written.well_formed w = true ->
        JS.split "/" (Written.US w)
        = [Written.month w; Written.day w; Written.year w]
        /\ JS.split "/" (Written.Europe w)
           = [Written.day w; Written.month w; Written.year w])
  /\ (forall d : string,
        free_of " " d = true ->
        Host.Date_new d = Host.Date_new (d ++ " 00:00")).
Proof.
  destruct (parseCustomerInfo_dates Date_new customer) as (Hs & Hi & Hr).
  split; [|split; [|split; [|split]]].
  - intros a b c rest E. split; intros L; now rewrite Hs, L, E.
  - intros a b c rest E. split; intros L; now rewrite Hi, L, E.
  - intros a b c rest E. split; intros L; now rewrite Hr, L, E.
  - intros w W. split; [now apply split_US|now apply split_Europe].
  - intros d F. symmetry. now apply Host_date_alone_is_midnight.
Qed.

(** C4: the cutoff is the date the host makes of the one literal
    "01-02-2020", January 2nd 2020 at 00:00 on [Host]; on every host where
    that literal is a date, a signup is before the cutoff exactly when its
    time value is strictly smaller: strictly before it, phone gets 4 and web
    app gets 8; at the cutoff itself or after it, phone gets 8 and web app
    gets 16. *)
Theorem C4_cutoff_is_strict :
  Host.Date_new "01-02-2020"
  = Some (Host.days_from_civil 2020 1 2 * Host.msPerDay)%Z
  /\ Host.Date_new "01-02-2020" = Host.Date_new "01/02/2020 00:00"
  /\ (forall (Date_new : string -> JS.Date)
             (customer : StandardCustomerData.t) (k s : Z),
        Date_new "01-02-2020" = Some k ->
        StandardCustomerData.SignupDate customer = Some s ->
        (isBefore (StandardCustomerData.SignupDate customer)
                  (Date_new "01-02-2020") = true
         <-> (s < k)%Z)
        /\ ((s < k)%Z ->
            (StandardCustomerData.Source customer = "phone" ->
             calculateRefundPeriod Date_new customer
             = JS.Return (JS.of_Z 4))
            /\ (StandardCustomerData.Source customer = "web app" ->
                calculateRefundPeriod Date_new customer
                = JS.Return (JS.of_Z 8)))
        /\ ((k <= s)%Z ->
            (StandardCustomerData.Source customer = "phone" ->
             calculateRefundPeriod Date_new customer
             = JS.Return (JS.of_Z 8))
            /\ (StandardCustomerData.Source customer = "web app" ->
                calculateRefundPeriod Date_new customer
                = JS.Return (JS.of_Z 16)))
        /\ (s = k ->
            isBefore (StandardCustomerData.SignupDate customer)
                     (Date_new "01-02-2020") = false
            /\ (StandardCustomerData.Source customer = "phone" ->
                calculateRefundPeriod Date_new customer
                = JS.Return (JS.of_Z 8))
            /\ (StandardCustomerData.Source customer = "web app" ->
                calculateRefundPeriod Date_new customer
                = JS.Return (JS.of_Z 16)))).
Proof.
  split; [vm_compute; reflexivity|]. split; [vm_compute; reflexivity|].
  intros Date_new customer k s Hk Hs.
  assert (S : isBefore (StandardCustomerData.SignupDate customer)
                       (Date_new "01-02-2020") = true
              <-> (s < k)%Z).
  { rewrite isBefore_Before, Hs, Hk. split.
    - intros (s' & k' & Es & Ek & Lt). congruence.
    - intros Lt. exists s, k. auto. }
  assert (After : (k <= s)%Z ->
                  isBefore (StandardCustomerData.SignupDate customer)
                           (Date_new "01-02-2020") = false).
  { intros Le. apply not_true_iff_false. intros B. apply S in B. lia. }
  split; [exact S|]. split; [|split].
  - intros Lt. apply S in Lt. split; intros E.
    + rewrite calculateRefundPeriod_phone by assumption. now rewrite Lt.
    + rewrite calculateRefundPeriod_web_app by assumption. now rewrite Lt.
  - intros Le. apply After in Le. split; intros E.
    + rewrite calculateRefundPeriod_phone by assumption. now rewrite Le.
    + rewrite calculateRefundPeriod_web_app by assumption. now rewrite Le.
  - intros ->. assert (B := After (Z.le_refl k)).
    split; [exact B|]. split; intros E.
    + rewrite calculateRefundPeriod_phone by assumption. now rewrite B.
    + rewrite calculateRefundPeriod_web_app by assumption. now rewrite B.
Qed.

(** ** The properties on the sample records, on [Host] *)

(** C1 on [us_phone_at_limit]: four hours elapsed against a window of four
    hours is valid. *)
Lemma C1_witness :
  evaluate Host.Date_new Sample.us_phone_at_limit
  = JS.Return Sample.us_phone_at_limit_result
  /\ (Evaluated.isRequestValid Sample.us_phone_at_limit_result = true
      <-> JS.le (Evaluated.requestTiming Sample.us_phone_at_limit_result)
                (Evaluated.refundPeriod Sample.us_phone_at_limit_result))
  /\ (JS.eq (Evaluated.requestTiming Sample.us_phone_at_limit_result)
            (Evaluated.refundPeriod Sample.us_phone_at_limit_result)
      -> Evaluated.isRequestValid Sample.us_phone_at_limit_result = true).
Proof.
  split; [vm_compute; reflexivity|].
  apply (C1_verdict_is_non_strict_comparison
           Host.Date_new Sample.us_phone_at_limit).
  vm_compute; reflexivity.
Defined.

(** C2 on [us_phone]: a phone customer who signed up in 2019 has four
    hours. *)
Lemma C2_witness :
  Before
    (StandardCustomerData.SignupDate
       (parseCustomerInfo Host.Date_new Sample.us_phone))
    (Host.Date_new "01-02-2020")
  /\ calculateRefundPeriod Host.Date_new
       (parseCustomerInfo Host.Date_new Sample.us_phone)
     = JS.Return (JS.of_Z 4).
Proof.
  assert (B : Before
                (StandardCustomerData.SignupDate
                   (parseCustomerInfo Host.Date_new Sample.us_phone))
                (Host.Date_new "01-02-2020")).
  { exists 1546300800000%Z, 1577923200000%Z.
    split; [vm_compute; reflexivity|].
    split; [vm_compute; reflexivity|reflexivity]. }
  split; [exact B|].
  exact (proj1 (proj1 (C2_refund_period_table Host.Date_new
                         (parseCustomerInfo Host.Date_new Sample.us_phone))
                      eq_refl) B).
Defined.

(** C3 on [eu_web]: the three dates, day first in the record, reach the
    host month first. *)
Lemma C3_witness :
  JS.split "/" (CustomerData.SignupDate Sample.eu_web) = ["15"; "03"; "2021"]
  /\ StandardCustomerData.SignupDate
       (parseCustomerInfo Host.Date_new Sample.eu_web)
     = Host.Date_new "03/15/2021".
Proof.
  split; [reflexivity|].
  exact (proj2 (proj1 (C3_normalizer Host.Date_new Sample.eu_web)
                      "15" "03" "2021" [] eq_refl)
           eq_refl).
Defined.

(** C4 on [us_phone_cutoff_day] and [us_phone]: a signup on January 2nd
    2020 is at the cutoff, and a phone customer gets eight hours; a signup on
    January 1st 2019 is before it, and a phone customer gets four. *)
Lemma C4_witness :
  Host.Date_new "01-02-2020" = Some 1577923200000%Z
  /\ StandardCustomerData.SignupDate
       (parseCustomerInfo Host.Date_new Sample.us_phone_cutoff_day)
     = Some 1577923200000%Z
  /\ calculateRefundPeriod Host.Date_new
       (parseCustomerInfo Host.Date_new Sample.us_phone_cutoff_day)
     = JS.Return (JS.of_Z 8)
  /\ StandardCustomerData.SignupDate
       (parseCustomerInfo Host.Date_new Sample.us_phone)
     = Some 1546300800000%Z
  /\ calculateRefundPeriod Host.Date_new
       (parseCustomerInfo Host.Date_new Sample.us_phone)
     = JS.Return (JS.of_Z 4).
Proof.
  assert (K : Host.Date_new "01-02-2020" = Some 1577923200000%Z)
    by (vm_compute; reflexivity).
  assert (A : StandardCustomerData.SignupDate
                (parseCustomerInfo Host.Date_new Sample.us_phone_cutoff_day)
              = Some 1577923200000%Z) by (vm_compute; reflexivity).
  assert (B : StandardCustomerData.SignupDate
                (parseCustomerInfo Host.Date_new Sample.us_phone)
              = Some 1546300800000%Z) by (vm_compute; reflexivity).
  split; [exact K|]. split; [exact A|]. split; [|split; [exact B|]].
  - destruct (proj2 (proj2 C4_cutoff_is_strict) Host.Date_new _ _ _ K A)
      as (_ & _ & _ & AtCutoff).
    destruct (AtCutoff eq_refl) as (_ & Phone & _).
    apply Phone. reflexivity.
  - destruct (proj2 (proj2 C4_cutoff_is_strict) Host.Date_new _ _ _ K B)
      as (_ & Before & _).
    destruct (Before eq_refl) as (Phone & _).
    apply Phone. reflexivity.
Defined.

(** C6 on the dates of [eu_web], written in both styles. *)
Lemma C6_witness :
  let us :=
    parseCustomerInfo Host.Date_new
      (CustomerData.mk "Bea" "US" "03/15/2021" "web app"
         "06/01/2024" "09:00" "06/02/2024" "00:00") in
  let europe := parseCustomerInfo Host.Date_new Sample.eu_web in
  StandardCustomerData.SignupDate us = StandardCustomerData.SignupDate europe
  /\ StandardCustomerData.InvestmentDate us
     = StandardCustomerData.InvestmentDate europe
  /\ StandardCustomerData.RefundDate us
     = StandardCustomerData.RefundDate europe
  /\ calculateRequestTiming us = calculateRequestTiming europe.
Proof.
  exact (C6_cross_locale_consistency Host.Date_new
           Sample.march_15_2021 Sample.june_1_2024 Sample.june_2_2024
           "Bea" "Bea" "web app" "web app" "09:00" "00:00"
           eq_refl eq_refl eq_refl).
Defined.

(** C7, the claim refuted: [us_phone] and [eu_web] evaluate on their own,
    [eu_mail] throws, and the batch of the three returns no result, not even
    for the record placed before [eu_mail]. *)
Lemma C7_counterexample :
  (exists r : Evaluated.t,
      evaluate Host.Date_new Sample.us_phone = JS.Return r)
  /\ (exists r : Evaluated.t,
        evaluate Host.Date_new Sample.eu_web = JS.Return r)
  /\ evaluate Host.Date_new Sample.eu_mail
     = JS.Throw (JS.Error "Invalid Source")
  /\ ~ (exists out : list Evaluated.t,
          customerData Host.Date_new
            [Sample.us_phone; Sample.eu_mail; Sample.eu_web]
          = JS.Return out).
Proof.
  split; [eexists; vm_compute; reflexivity|].
  split; [eexists; vm_compute; reflexivity|].
  split; [vm_compute; reflexivity|].
  intros [out H]. vm_compute in H. discriminate.
Qed.

(** C7 on the same batch: it throws the error of [eu_mail]. *)
Lemma C7_witness :
  customerData Host.Date_new
    [Sample.us_phone; Sample.eu_mail; Sample.eu_web]
  = JS.Throw (JS.Error "Invalid Source").
Proof.
  apply (proj1 (proj2 (C7_invalid_source_aborts_the_batch Host.Date_new))).
  apply Exists_cons_tl, Exists_cons_hd.
  intros [H|H]; discriminate H.
Defined.

(** C8, the claim refuted: the Location Asia is no error; the record
    evaluates, its dates read day first. *)
Lemma C8_counterexample :
  CustomerData.Location Sample.asia_web <> "US"
  /\ CustomerData.Location Sample.asia_web <> "Europe"
  /\ evaluate Host.Date_new Sample.asia_web
     = JS.Return Sample.asia_web_result
  /\ Evaluated.SignupDate Sample.asia_web_result
     = Host.Date_new "03/15/2021".
Proof.
  split; [discriminate|]. split; [discriminate|].
  split; vm_compute; reflexivity.
Qed.

(** C8 on [asia_web]: the dates are those of the same record with Location
    Europe. *)
Lemma C8_witness :
  CustomerData.Location Sample.asia_web <> "US"
  /\ StandardCustomerData.SignupDate
       (parseCustomerInfo Host.Date_new Sample.asia_web)
     = Host.Date_new "03/15/2021"
  /\ exists r : Evaluated.t,
       evaluate Host.Date_new Sample.asia_web = JS.Return r.
Proof.
  assert (N : CustomerData.Location Sample.asia_web <> "US")
    by discriminate.
  split; [exact N|].
  destruct (C8_other_locations_read_day_first
              Host.Date_new Sample.asia_web N)
    as (Hs & _ & _ & _ & _ & _ & Hv & _).
  split; [exact (Hs "15" "03" "2021" [] eq_refl)|].
  apply Hv. right. reflexivity.
Defined.

(** C9 on [us_phone_bad_time]: the refund time 99:99 gives an invalid date,
    a [NaN] elapsed time and a verdict that is false. *)
Lemma C9_witness :
  StandardCustomerData.RefundDate
    (parseCustomerInfo Host.Date_new Sample.us_phone_bad_time) = None
  /\ calculateRequestTiming
       (parseCustomerInfo Host.Date_new Sample.us_phone_bad_time) = JS.NaN
  /\ exists r : Evaluated.t,
       evaluate Host.Date_new Sample.us_phone_bad_time = JS.Return r
       /\ Evaluated.isRequestValid r = false.
Proof.
  assert (E : StandardCustomerData.RefundDate
                (parseCustomerInfo Host.Date_new Sample.us_phone_bad_time)
              = None) by (vm_compute; reflexivity).
  split; [exact E|].
  destruct (C9_invalid_dates_do_not_throw
              Host.Date_new Sample.us_phone_bad_time (or_intror E))
    as (Ht & _ & Hv & _).
  split; [exact Ht|].
  apply Hv. left. reflexivity.
Defined.

(** C10 on [eu_web] with its Source spelled web-app. *)
Lemma C10_witness :
  calculateRefundPeriod Host.Date_new
    (parseCustomerInfo Host.Date_new
       (CustomerData.with_Source "web-app" Sample.eu_web))
  = JS.Throw (JS.Error "Invalid Source").
Proof.
  exact (proj2 (proj2 (C10_accepted_sources Host.Date_new
                         (parseCustomerInfo Host.Date_new
                            (CustomerData.with_Source "web-app"
                               Sample.eu_web))))
           eq_refl).
Defined.

(** ** The scenarios of the specification, on [Host] *)

(** US, phone, signup in 2019, refund three hours after the investment:
    a window of four hours, valid. *)
Example scenario_us_phone :
  exists r : Evaluated.t,
    evaluate Host.Date_new Sample.us_phone = JS.Return r
    /\ JS.eq (Evaluated.requestTiming r) (JS.of_Z 3)
    /\ Evaluated.refundPeriod r = JS.of_Z 4
    /\ Evaluated.isRequestValid r = true.
Proof.
  eexists. split; [vm_compute; reflexivity|].
  cbn. split; [constructor; reflexivity|]. split; reflexivity.
Qed.

(** Europe, web app, signup in March 2021, refund fifteen hours after the
    investment: a window of sixteen hours, valid. *)
Example scenario_eu_web :
  exists r : Evaluated.t,
    evaluate Host.Date_new Sample.eu_web = JS.Return r
    /\ JS.eq (Evaluated.requestTiming r) (JS.of_Z 15)
    /\ Evaluated.refundPeriod r = JS.of_Z 16
    /\ Evaluated.isRequestValid r = true.
Proof.
  eexists. split; [vm_compute; reflexivity|].
  cbn. split; [constructor; reflexivity|]. split; reflexivity.
Qed.

(** ** Further properties: pieces of a date *)

Lemma split_not_nil (sep : ascii) (s : string) : JS.split sep s <> [].
Proof.
  destruct s as [|c s]; simpl; [discriminate|].
  destruct (Ascii.eqb c sep); [discriminate|].
  destruct (JS.split sep s); discriminate.
Qed.

Lemma split_join (sep : ascii) (s : string) : join sep (JS.split sep s) = s.
Proof.
  induction s as [|c s IH]; [reflexivity|]. simpl.
  pose proof (split_not_nil sep s) as N.
  destruct (JS.split sep s) as [|p ps]; [contradiction|].
  destruct (Ascii.eqb_spec c sep) as [->|_].
  - change (join sep (EmptyString :: p :: ps))
      with (String sep (join sep (p :: ps))).
    now rewrite IH.
  - destruct ps; simpl in *; now rewrite <- IH.
Qed.

Lemma split_pieces_free (sep : ascii) (s : string) :
  Forall (fun p => free_of sep p = true) (JS.split sep s).
Proof.
  induction s as [|c s IH]; simpl; [repeat constructor|].
  destruct (Ascii.eqb c sep) eqn:E; [now constructor|].
  destruct (JS.split sep s) as [|p ps].
  - repeat constructor. simpl. now rewrite E.
  - inversion IH as [|? ? Hp Hps]; subst. constructor; [|exact Hps].
    simpl. now rewrite E, Hp.
Qed.

(** A date of exactly three pieces is its pieces with slashes between. *)
Lemma three_pieces (s a b c : string) :
  JS.split "/" s = [a; b; c] ->
  s = a ++ "/" ++ b ++ "/" ++ c
  /\ free_of "/" a = true /\ free_of "/" b = true /\ free_of "/" c = true.
Proof.
  intros E. split.
  - rewrite <- (split_join "/" s) at 1. rewrite E. reflexivity.
  - pose proof (split_pieces_free "/" s) as F. rewrite E in F.
    inversion F as [|? ? Ha F1]; subst.
    inversion F1 as [|? ? Hb F2]; subst.
    inversion F2 as [|? ? Hc _]; subst. auto.
Qed.

Lemma length_three (l : list string) :
  List.length l = 3%nat -> exists a b c : string, l = [a; b; c].
Proof.
  destruct l as [|a [|b [|c [|d l]]]]; try discriminate. eauto.
Qed.

(** ** Further properties: [map] over an array *)

Section Array_map_more.

Context {A B : Type}.
Variable f : A -> JS.completion B.

Lemma Array_map_Return_inv (a : list A) (out : list B) :
  JS.Array_map f a = JS.Return out ->
  Forall2 (fun x y => f x = JS.Return y) a out.
Proof.
  revert out. induction a as [|x a IH]; simpl; intros out H.
  - injection H as <-. constructor.
  - destruct (f x) as [y|e] eqn:Hx; simpl in H; [|discriminate].
    destruct (JS.Array_map f a) as [ys|e]; simpl in H; [|discriminate].
    injection H as <-. constructor; [exact Hx|now apply IH].
Qed.

Lemma Array_map_Throw_inv (a : list A) (e : JS.exn) :
  JS.Array_map f a = JS.Throw e -> Exists (fun x => f x = JS.Throw e) a.
Proof.
  induction a as [|x a IH]; simpl; intros H; [discriminate|].
  destruct (f x) as [y|e'] eqn:Hx; simpl in H.
  - destruct (JS.Array_map f a) as [ys|e']; simpl in H; [discriminate|].
    apply Exists_cons_tl, IH. exact H.
  - apply Exists_cons_hd. congruence.
Qed.

End Array_map_more.

Lemma Forall2_map_eq {A B C : Type} (g : A -> C) (h : B -> C)
    (R : A -> B -> Prop) (l : list A) (l' : list B) :
  (forall x y, R x y -> h y = g x) ->
  Forall2 R l l' -> map h l' = map g l.
Proof.
  intros K. induction 1 as [|x y l l' Hxy _ IH]; simpl; [reflexivity|].
  now rewrite (K x y Hxy), IH.
Qed.

Lemma Forall2_Exists {A B : Type} (R : A -> B -> Prop)
    (P : A -> Prop) (Q : B -> Prop) (l : list A) (l' : list B) :
  (forall x y, R x y -> P x -> Q y) ->
  Forall2 R l l' -> Exists P l -> Exists Q l'.
Proof.
  intros K. induction 1 as [|x y l l' Hxy _ IH]; intros Ex; inversion Ex; subst.
  - apply Exists_cons_hd. eauto.
  - apply Exists_cons_tl. auto.
Qed.

Lemma Forall2_Forall_l {A B : Type} (R : A -> B -> Prop)
    (P : A -> Prop) (Q : B -> Prop) (l : list A) (l' : list B) :
  (forall x y, R x y -> Q y -> P x) ->
  Forall2 R l l' -> Forall Q l' -> Forall P l.
Proof.
  intros K. induction 1 as [|x y l l' Hxy _ IH]; intros All;
    inversion All; subst; constructor; eauto.
Qed.

Lemma Forall2_exists_l {A B : Type} (R : A -> B -> Prop)
    (l : list A) (l' : list B) :
  Forall2 R l l' -> Forall (fun x => exists y, R x y) l.
Proof.
  induction 1; constructor; eauto.
Qed.

Lemma Forall2_Forall {A B : Type} (R : A -> B -> Prop)
    (P : A -> Prop) (Q : B -> Prop) (l : list A) (l' : list B) :
  (forall x y, R x y -> P x -> Q y) ->
  Forall2 R l l' -> Forall P l -> Forall Q l'.
Proof.
  intros K. induction 1 as [|x y l l' Hxy _ IH]; intros All;
    inversion All; subst; constructor; eauto.
Qed.

(** ** Further properties of the evaluator, for every host *)

Lemma leb_hours (i r w : Z) :
  JS.leb
    (JS.Num ((inject_Z r - inject_Z i)
             / (inject_Z 60 * inject_Z 60 * inject_Z 1000)))
    (JS.of_Z w) = true
  <-> (r - i <= w * 3600000)%Z.
Proof.
  unfold JS.leb, JS.of_Z. rewrite Qle_bool_iff.
  unfold Qle, Qdiv, Qminus, Qplus, Qopp, Qmult, Qinv, inject_Z. simpl. lia.
Qed.

Section Further.

Variable Date_new : string -> JS.Date.

(** The verdict of a record with two valid dates, against any window. *)
Lemma isRequestValid_milliseconds
    (data : CustomerData.t) (res : Evaluated.t) (i r w : Z) :
  evaluate Date_new data = JS.Return res ->
  Evaluated.InvestmentDate res = Some i ->
  Evaluated.RefundDate res = Some r ->
  Evaluated.refundPeriod res = JS.of_Z w ->
  Evaluated.isRequestValid res = true <-> (r - i <= w * 3600000)%Z.
Proof.
  intros H Ei Er Ew.
  apply evaluate_Return in H as (_ & Ht & Hv & _ & Hi & Hr).
  rewrite Hi in Ei. rewrite Hr in Er.
  rewrite (calculateRequestTiming_dates _ i r Ei Er) in Ht.
  rewrite Hv, Ht, Ew. apply leb_hours.
Qed.

Lemma refundPeriod_values (data : CustomerData.t) (res : Evaluated.t) :
  evaluate Date_new data = JS.Return res ->
  exists w : Z,
    Evaluated.refundPeriod res = JS.of_Z w /\ (w = 4 \/ w = 8 \/ w = 16)%Z.
Proof.
  intros H. apply evaluate_Return in H as (Hp & _).
  apply calculateRefundPeriod_values in Hp as [E|[E|E]]; eauto 6.
Qed.

(** What [evaluate] copies from the record. *)
Lemma evaluate_copies (data : CustomerData.t) (res : Evaluated.t) :
  evaluate Date_new data = JS.Return res ->
  Evaluated.Name res = CustomerData.Name data
  /\ Evaluated.Location res = CustomerData.Location data
  /\ Evaluated.Source res = CustomerData.Source data.
Proof.
  unfold evaluate.
  destruct (calculateRefundPeriod Date_new (parseCustomerInfo Date_new data))
    as [p|e]; simpl; intros H; [|discriminate].
  injection H as <-. repeat split.
Qed.

(** X1: for a record with valid investment and refund dates, the verdict is
    true exactly when the refund is at most the window after the
    investment, counted in milliseconds: refund - investment <= window *
    3600000, with a window of 4, 8 or 16. *)
Theorem X1_verdict_to_the_millisecond
    (data : CustomerData.t) (res : Evaluated.t) (i r : Z) :
  evaluate Date_new data = JS.Return res ->
  Evaluated.InvestmentDate res = Some i ->
  Evaluated.RefundDate res = Some r ->
  exists w : Z,
    Evaluated.refundPeriod res = JS.of_Z w
    /\ (w = 4 \/ w = 8 \/ w = 16)%Z
    /\ (Evaluated.isRequestValid res = true <-> (r - i <= w * 3600000)%Z).
Proof.
  intros H Ei Er. destruct (refundPeriod_values data res H) as (w & Ew & Hw).
  exists w. split; [exact Ew|]. split; [exact Hw|].
  now apply (isRequestValid_milliseconds data).
Qed.

(** X2: of two records with the same investment date and the same window,
    the one with the earlier refund is valid whenever the other one is. *)
Theorem X2_earlier_refund_stays_valid
    (data1 data2 : CustomerData.t) (res1 res2 : Evaluated.t)
    (i r1 r2 : Z) :
  evaluate Date_new data1 = JS.Return res1 ->
  evaluate Date_new data2 = JS.Return res2 ->
  Evaluated.refundPeriod res1 = Evaluated.refundPeriod res2 ->
  Evaluated.InvestmentDate res1 = Some i ->
  Evaluated.InvestmentDate res2 = Some i ->
  Evaluated.RefundDate res1 = Some r1 ->
  Evaluated.RefundDate res2 = Some r2 ->
  (r1 <= r2)%Z ->
  Evaluated.isRequestValid res2 = true ->
  Evaluated.isRequestValid res1 = true.
Proof.
  intros H1 H2 Ep Ei1 Ei2 Er1 Er2 Le V.
  destruct (refundPeriod_values data2 res2 H2) as (w & Ew & _).
  apply (isRequestValid_milliseconds data2 res2 i r2 w H2 Ei2 Er2 Ew) in V.
  rewrite <- Ep in Ew.
  apply (isRequestValid_milliseconds data1 res1 i r1 w H1 Ei1 Er1 Ew). lia.
Qed.

Lemma leb_weaken (x : JS.number) (a b : Z) :
  (a <= b)%Z -> JS.leb x (JS.of_Z a) = true -> JS.leb x (JS.of_Z b) = true.
Proof.
  destruct x as [|q]; simpl; [discriminate|]. intros Le.
  rewrite !Qle_bool_iff. intros H. apply (Qle_trans _ _ _ H).
  rewrite <- Zle_Qle. exact Le.
Qed.

(** X3: the same record evaluated with Source web app instead of phone has
    the same elapsed time and twice the window, so it is valid whenever the
    phone record is. *)
Theorem X3_web_app_doubles_the_window
    (data : CustomerData.t) (phone : Evaluated.t) :
  evaluate Date_new (CustomerData.with_Source "phone" data)
  = JS.Return phone ->
  exists web : Evaluated.t,
    evaluate Date_new (CustomerData.with_Source "web app" data)
    = JS.Return web
    /\ Evaluated.requestTiming web = Evaluated.requestTiming phone
    /\ Evaluated.refundPeriod web
       = JS.mul (JS.of_Z 2) (Evaluated.refundPeriod phone)
    /\ (Evaluated.isRequestValid phone = true ->
        Evaluated.isRequestValid web = true).
Proof.
  unfold evaluate, calculateRefundPeriod.
  cbn - [isBefore calculateRequestTiming JS.leb].
  destruct (isBefore _ _); intros H; injection H as <-;
    (eexists; split; [reflexivity|]);
    cbn - [calculateRequestTiming JS.leb];
    (split; [reflexivity|]); (split; [reflexivity|]);
    apply leb_weaken; lia.
Qed.

(** X4: when the signup date is invalid, or when the host does not read
    the cutoff literal as a date, the signup is never before the cutoff:
    phone gets 8 and web app gets 16. *)
Theorem X4_invalid_signup_or_cutoff_is_new_terms
    (customer : StandardCustomerData.t) :
  StandardCustomerData.SignupDate customer = None
  \/ Date_new "01-02-2020" = None ->
  (StandardCustomerData.Source customer = "phone" ->
   calculateRefundPeriod Date_new customer = JS.Return (JS.of_Z 8))
  /\ (StandardCustomerData.Source customer = "web app" ->
      calculateRefundPeriod Date_new customer = JS.Return (JS.of_Z 16)).
Proof.
  intros Bad.
  assert (B : isBefore (StandardCustomerData.SignupDate customer)
                       (Date_new "01-02-2020") = false).
  { unfold isBefore. destruct Bad as [->| ->]; [reflexivity|].
    destruct (StandardCustomerData.SignupDate customer); reflexivity. }
  split; intros E.
  - rewrite calculateRefundPeriod_phone by assumption. now rewrite B.
  - rewrite calculateRefundPeriod_web_app by assumption. now rewrite B.
Qed.

(** X5: a date that holds no slash is handed to the Date constructor with
    the word undefined in place of its two missing pieces: first when the
    Location is US, around it otherwise. *)
Theorem X5_missing_pieces_read_undefined (data : CustomerData.t) :
  (free_of "/" (CustomerData.SignupDate data) = true ->
   StandardCustomerData.SignupDate (parseCustomerInfo Date_new data)
   = Date_new
       (if CustomerData.Location data =? "US"
        then CustomerData.SignupDate data ++ "/undefined/undefined"
        else "undefined/" ++ CustomerData.SignupDate data ++ "/undefined"))
  /\ (free_of "/" (CustomerData.InvestmentDate data) = true ->
      StandardCustomerData.InvestmentDate (parseCustomerInfo Date_new data)
      = Date_new
          ((if CustomerData.Location data =? "US"
            then CustomerData.InvestmentDate data ++ "/undefined/undefined"
            else "undefined/" ++ CustomerData.InvestmentDate data
                 ++ "/undefined")
           ++ " " ++ CustomerData.InvestmentTime data))
  /\ (free_of "/" (CustomerData.RefundDate data) = true ->
      StandardCustomerData.RefundDate (parseCustomerInfo Date_new data)
      = Date_new
          ((if CustomerData.Location data =? "US"
            then CustomerData.RefundDate data ++ "/undefined/undefined"
            else "undefined/" ++ CustomerData.RefundDate data
                 ++ "/undefined")
           ++ " " ++ CustomerData.RefundTime data)).
Proof.
  destruct (parseCustomerInfo_dates Date_new data) as (Hs & Hi & Hr).
  split; [|split]; intros F.
  - rewrite Hs, (split_free _ _ F).
    destruct (CustomerData.Location data =? "US"); reflexivity.
  - rewrite Hi, (split_free _ _ F).
    destruct (CustomerData.Location data =? "US"); reflexivity.
  - rewrite Hr, (split_free _ _ F).
    destruct (CustomerData.Location data =? "US"); reflexivity.
Qed.

Lemma dateFormat_three_US (s : string) :
  List.length (JS.split "/" s) = 3%nat ->
  dateFormat true (JS.split "/" s) = s.
Proof.
  intros L. destruct (length_three _ L) as (a & b & c & E).
  destruct (three_pieces s a b c E) as (Es & _).
  rewrite E. symmetry. exact Es.
Qed.

(** X6: with Location US, a date of exactly three pieces reaches the Date
    constructor as it was written: the signup date alone, the investment
    and refund dates followed by a space and their time. *)
Theorem X6_US_dates_pass_unchanged (data : CustomerData.t) :
  CustomerData.Location data = "US" ->
  (List.length (JS.split "/" (CustomerData.SignupDate data)) = 3%nat ->
   StandardCustomerData.SignupDate (parseCustomerInfo Date_new data)
   = Date_new (CustomerData.SignupDate data))
  /\ (List.length (JS.split "/" (CustomerData.InvestmentDate data)) = 3%nat ->
      StandardCustomerData.InvestmentDate (parseCustomerInfo Date_new data)
      = Date_new (CustomerData.InvestmentDate data
                  ++ " " ++ CustomerData.InvestmentTime data))
  /\ (List.length (JS.split "/" (CustomerData.RefundDate data)) = 3%nat ->
      StandardCustomerData.RefundDate (parseCustomerInfo Date_new data)
      = Date_new (CustomerData.RefundDate data
                  ++ " " ++ CustomerData.RefundTime data)).
Proof.
  intros L. destruct (parseCustomerInfo_dates Date_new data) as (Hs & Hi & Hr).
  rewrite L in Hs, Hi, Hr. change ("US" =? "US") with true in Hs, Hi, Hr.
  split; [|split]; intros T.
  - now rewrite Hs, (dateFormat_three_US _ T).
  - now rewrite Hi, (dateFormat_three_US _ T).
  - now rewrite Hr, (dateFormat_three_US _ T).
Qed.

(** X7: on a date of exactly three pieces, the swap made for a Location
    other than US gives again a date of three pieces, and making it twice
    gives the date back. *)
Theorem X7_swapping_twice_gives_the_date_back (s : string) :
  List.length (JS.split "/" s) = 3%nat ->
  List.length (JS.split "/" (dateFormat false (JS.split "/" s))) = 3%nat
  /\ dateFormat false (JS.split "/" (dateFormat false (JS.split "/" s))) = s.
Proof.
  intros L. destruct (length_three _ L) as (a & b & c & E).
  destruct (three_pieces s a b c E) as (Es & Fa & Fb & Fc).
  rewrite E.
  change (dateFormat false [a; b; c]) with (b ++ "/" ++ a ++ "/" ++ c).
  rewrite (split_three b a c Fb Fa Fc). split; [reflexivity|].
  symmetry. exact Es.
Qed.

(** X8: when the batch returns, it returns one result per record, in the
    order of the records: each result is what [evaluate] returns for the
    record at its place, and carries its Name. *)
Theorem X8_batch_results_follow_the_records
    (data : list CustomerData.t) (out : list Evaluated.t) :
  customerData Date_new data = JS.Return out ->
  Forall2 (fun c r => evaluate Date_new c = JS.Return r) data out
  /\ List.length out = List.length data
  /\ map Evaluated.Name out = map CustomerData.Name data.
Proof.
  intros H. apply Array_map_Return_inv in H.
  split; [exact H|]. split.
  - symmetry. exact (Forall2_length H).
  - revert H. apply Forall2_map_eq.
    intros c r Hr. now apply evaluate_copies in Hr.
Qed.

End Further.

(** ** Properties of the table, for every host and every formatter *)

Lemma differenceInHours_dates (r i : Z) :
  differenceInHours (Some r) (Some i)
  = JS.of_Z (Z.quot (r - i) 3600000).
Proof.
  unfold differenceInHours, Math_trunc. cbn.
  replace ((r * 1 + - i * 1) * 1)%Z with (r - i)%Z by lia. reflexivity.
Qed.

Lemma quot_hours_le (d w : Z) :
  (0 <= w)%Z -> (d <= w * 3600000)%Z -> (Z.quot d 3600000 <= w)%Z.
Proof.
  intros Hw Hd. Z.quot_rem_to_equations. lia.
Qed.

Lemma quot_hours_ge (d w : Z) :
  (0 <= w)%Z -> (w * 3600000 < d)%Z -> (w <= Z.quot d 3600000)%Z.
Proof.
  intros Hw Hd. Z.quot_rem_to_equations. lia.
Qed.

Section Table.

Variable Date_new : string -> JS.Date.
Variable format_text : Z -> string -> string.

(** A row is built exactly when the three dates are valid. *)
Lemma row_Return (customer : Evaluated.t) (r : Row.t) :
  row Date_new format_text customer = JS.Return r ->
  exists s i t : Z,
    Evaluated.SignupDate customer = Some s
    /\ Evaluated.InvestmentDate customer = Some i
    /\ Evaluated.RefundDate customer = Some t
    /\ Row.key r = Evaluated.Name customer
    /\ Row.RefundHours r = JS.of_Z (Z.quot (t - i) 3600000)
    /\ Row.RefundPeriod r = Evaluated.refundPeriod customer
    /\ Row.TOS r
       = (if isBefore (Evaluated.SignupDate customer)
                      (Date_new "01-02-2020")
          then "Old" else "New")
    /\ Row.RequestStatus r
       = (if Evaluated.isRequestValid customer then "Valid" else "Invalid").
Proof.
  unfold row, format.
  destruct (Evaluated.SignupDate customer) as [s|] eqn:Es;
    [|discriminate].
  destruct (Evaluated.InvestmentDate customer) as [i|] eqn:Ei;
    [|discriminate].
  destruct (Evaluated.RefundDate customer) as [t|] eqn:Et;
    [|discriminate].
  cbn - [differenceInHours isBefore]. intros H. injection H as <-.
  exists s, i, t. cbn - [differenceInHours isBefore].
  rewrite differenceInHours_dates. repeat split.
Qed.

Lemma row_valid (customer : Evaluated.t) :
  Evaluated.SignupDate customer <> None ->
  Evaluated.InvestmentDate customer <> None ->
  Evaluated.RefundDate customer <> None ->
  exists r : Row.t, row Date_new format_text customer = JS.Return r.
Proof.
  unfold row, format. intros Hs Hi Hr.
  destruct (Evaluated.SignupDate customer); [|contradiction].
  destruct (Evaluated.InvestmentDate customer); [|contradiction].
  destruct (Evaluated.RefundDate customer); [|contradiction].
  cbn - [differenceInHours isBefore]. eauto.
Qed.

Lemma row_invalid (customer : Evaluated.t) :
  Evaluated.SignupDate customer = None
  \/ Evaluated.InvestmentDate customer = None
  \/ Evaluated.RefundDate customer = None ->
  row Date_new format_text customer
  = JS.Throw (JS.Error "Invalid time value").
Proof.
  unfold row, format. intros [E|[E|E]]; rewrite E.
  - reflexivity.
  - destruct (Evaluated.SignupDate customer); reflexivity.
  - destruct (Evaluated.SignupDate customer); [|reflexivity].
    destruct (Evaluated.InvestmentDate customer); reflexivity.
Qed.

Lemma row_Throw_only (customer : Evaluated.t) (e : JS.exn) :
  row Date_new format_text customer = JS.Throw e ->
  e = JS.Error "Invalid time value".
Proof.
  unfold row, format.
  destruct (Evaluated.SignupDate customer); [|cbn; congruence].
  destruct (Evaluated.InvestmentDate customer); [|cbn; congruence].
  destruct (Evaluated.RefundDate customer); [|cbn; congruence].
  cbn - [differenceInHours isBefore]. discriminate.
Qed.

(** The dates of a result are valid when those of its record are. *)
Lemma evaluate_valid_dates (data : CustomerData.t) (res : Evaluated.t) :
  evaluate Date_new data = JS.Return res ->
  valid_dates Date_new data
  <-> (Evaluated.SignupDate res <> None
       /\ Evaluated.InvestmentDate res <> None
       /\ Evaluated.RefundDate res <> None).
Proof.
  intros H. apply evaluate_Return in H as (_ & _ & _ & Hs & Hi & Hr).
  unfold valid_dates. rewrite Hs, Hi, Hr. reflexivity.
Qed.

(** X10: the TOS cell of a row goes with the window shown in the same row:
    for phone it reads Old exactly when the window is 4, for web app
    exactly when the window is 8; it reads New otherwise. *)
Theorem X10_TOS_cell_matches_the_window
    (data : CustomerData.t) (customer : Evaluated.t) (r : Row.t) :
  evaluate Date_new data = JS.Return customer ->
  row Date_new format_text customer = JS.Return r ->
  (Row.TOS r = "Old" \/ Row.TOS r = "New")
  /\ (CustomerData.Source data = "phone" ->
      (Row.TOS r = "Old" <-> Row.RefundPeriod r = JS.of_Z 4)
      /\ (Row.TOS r = "New" <-> Row.RefundPeriod r = JS.of_Z 8))
  /\ (CustomerData.Source data = "web app" ->
      (Row.TOS r = "Old" <-> Row.RefundPeriod r = JS.of_Z 8)
      /\ (Row.TOS r = "New" <-> Row.RefundPeriod r = JS.of_Z 16)).
Proof.
  intros H Hrow.
  apply row_Return in Hrow
    as (s & i & t & _ & _ & _ & _ & _ & Hp & Htos & _).
  apply evaluate_Return in H as (Hcalc & _ & _ & Hs & _).
  rewrite Htos, Hp, Hs. clear Htos Hp.
  split; [destruct (isBefore _ _); auto|]. split; intros E.
  - rewrite calculateRefundPeriod_phone in Hcalc by exact E.
    injection Hcalc as <-.
    destruct (isBefore _ _); repeat split; intros; discriminate.
  - rewrite calculateRefundPeriod_web_app in Hcalc by exact E.
    injection Hcalc as <-.
    destruct (isBefore _ _); repeat split; intros; discriminate.
Qed.


(** When every Source is valid the batch returns. *)
Lemma customerData_valid (data : list CustomerData.t) :
  Forall (fun c => valid_Source (CustomerData.Source c)) data ->
  exists out : list Evaluated.t,
    customerData Date_new data = JS.Return out
    /\ Forall2 (fun c x => evaluate Date_new c = JS.Return x) data out.
Proof.
  intros All. apply Array_map_Return.
  revert All. apply Forall_impl. apply evaluate_valid.
Qed.

(** X12: [Home] returns the rows of its table exactly when every record has
    a valid Source and three valid dates; the rows are then as many as the
    records and keyed by their Names, in order. *)
Theorem X12_Home_returns_rows (data : list CustomerData.t) :
  ((exists rows : list Row.t,
       Home Date_new format_text data = JS.Return rows)
   <-> Forall (fun c => valid_Source (CustomerData.Source c)
                        /\ valid_dates Date_new c) data)
  /\ (forall rows : list Row.t,
        Home Date_new format_text data = JS.Return rows ->
        List.length rows = List.length data
        /\ map Row.key rows = map CustomerData.Name data).
Proof.
  unfold Home. split; [split|].
  - intros [rows H].
    destruct (customerData Date_new data) as [out|e] eqn:Hout;
      simpl in H; [|discriminate].
    apply Array_map_Return_inv in Hout. apply Array_map_Return_inv in H.
    apply Forall2_exists_l in H. revert Hout H. apply Forall2_Forall_l.
    intros c x Hc [r Hr]. split.
    + destruct (valid_Source_dec (CustomerData.Source c)) as [V|N];
        [exact V|].
      rewrite (evaluate_invalid Date_new c N) in Hc. discriminate.
    + apply (evaluate_valid_dates c x Hc).
      apply row_Return in Hr as (s & i & t & Es & Ei & Et & _).
      rewrite Es, Ei, Et. repeat split; discriminate.
  - intros All.
    destruct (customerData_valid data) as (out & Hout & F2).
    { revert All. apply Forall_impl. tauto. }
    rewrite Hout. simpl.
    destruct (Array_map_Return (row Date_new format_text) out)
      as (rows & Hrows & _); [|eauto].
    revert F2 All. apply Forall2_Forall.
    intros c x Hc [_ D]. apply (evaluate_valid_dates c x Hc) in D.
    destruct D as (Ds & Di & Dr). now apply row_valid.
  - intros rows H.
    destruct (customerData Date_new data) as [out|e] eqn:Hout;
      simpl in H; [|discriminate].
    apply Array_map_Return_inv in Hout. apply Array_map_Return_inv in H.
    split.
    + rewrite (Forall2_length Hout). symmetry. exact (Forall2_length H).
    + transitivity (map Evaluated.Name out).
      * revert H. apply Forall2_map_eq. intros x r Hr.
        now apply row_Return in Hr as (s & i & t & _ & _ & _ & K & _).
      * revert Hout. apply Forall2_map_eq. intros c x Hc.
        now apply evaluate_copies in Hc.
Qed.

(** X13: [Home] throws the error Invalid Source as soon as one record has
    an invalid Source, whatever the dates; when every Source is valid and one
    record has a date that is invalid, a record that [evaluate] accepts,
    [Home] throws the RangeError of [format] and shows no row. *)
Theorem X13_Home_failures (data : list CustomerData.t) :
  (Exists (fun c => ~ valid_Source (CustomerData.Source c)) data ->
   Home Date_new format_text data = JS.Throw (JS.Error "Invalid Source"))
  /\ (Forall (fun c => valid_Source (CustomerData.Source c)) data ->
      Exists (fun c => ~ valid_dates Date_new c) data ->
      Home Date_new format_text data
      = JS.Throw (JS.Error "Invalid time value")).
Proof.
  unfold Home. split.
  - intros Ex.
    assert (T : customerData Date_new data
                = JS.Throw (JS.Error "Invalid Source")).
    { apply Array_map_Throw.
      - intros x e' H. now apply evaluate_Throw_only in H.
      - revert Ex. apply Exists_impl. apply evaluate_invalid. }
    now rewrite T.
  - intros All Ex.
    destruct (customerData_valid data All) as (out & Hout & F2).
    rewrite Hout. simpl. apply Array_map_Throw.
    + intros x e'. apply row_Throw_only.
    + revert F2 Ex. apply Forall2_Exists.
      intros c x Hc N. apply row_invalid.
      destruct (Evaluated.SignupDate x) eqn:Es; [|now left].
      destruct (Evaluated.InvestmentDate x) eqn:Ei; [|now right; left].
      destruct (Evaluated.RefundDate x) eqn:Er; [|now right; right].
      exfalso. apply N. apply (evaluate_valid_dates c x Hc).
      rewrite Es, Ei, Er. repeat split; discriminate.
Qed.

End Table.

(** ** The further properties on the sample records, on [Host] *)

(** X1 on [us_phone_late]: four and a half hours are more than the four
    hours of the window. *)
Lemma X1_witness :
  evaluate Host.Date_new Sample.us_phone_late
  = JS.Return Sample.us_phone_late_result
  /\ exists w : Z,
       Evaluated.refundPeriod Sample.us_phone_late_result = JS.of_Z w
       /\ (w = 4 \/ w = 8 \/ w = 16)%Z
       /\ (Evaluated.isRequestValid Sample.us_phone_late_result = true
           <-> (1704897000000 - 1704880800000 <= w * 3600000)%Z).
Proof.
  split; [vm_compute; reflexivity|].
  apply (X1_verdict_to_the_millisecond Host.Date_new Sample.us_phone_late);
    vm_compute; reflexivity.
Defined.

(** X2 on [us_phone] and [us_phone_at_limit]: valid at 14:00, hence valid
    at 13:00. *)
Lemma X2_witness :
  evaluate Host.Date_new Sample.us_phone = JS.Return Sample.us_phone_result
  /\ evaluate Host.Date_new Sample.us_phone_at_limit
     = JS.Return Sample.us_phone_at_limit_result
  /\ Evaluated.isRequestValid Sample.us_phone_result = true.
Proof.
  split; [vm_compute; reflexivity|]. split; [vm_compute; reflexivity|].
  apply (X2_earlier_refund_stays_valid Host.Date_new
           Sample.us_phone Sample.us_phone_at_limit
           Sample.us_phone_result Sample.us_phone_at_limit_result
           1704880800000 1704891600000 1704895200000);
    try (vm_compute; reflexivity).
  vm_compute. discriminate.
Defined.

(** X3 on [eu_web]: a window of eight hours as phone, of sixteen as web
    app. *)
Lemma X3_witness :
  evaluate Host.Date_new (CustomerData.with_Source "phone" Sample.eu_web)
  = JS.Return Sample.eu_phone_result
  /\ exists web : Evaluated.t,
       evaluate Host.Date_new
         (CustomerData.with_Source "web app" Sample.eu_web)
       = JS.Return web
       /\ Evaluated.requestTiming web
          = Evaluated.requestTiming Sample.eu_phone_result
       /\ Evaluated.refundPeriod web
          = JS.mul (JS.of_Z 2)
              (Evaluated.refundPeriod Sample.eu_phone_result)
       /\ (Evaluated.isRequestValid Sample.eu_phone_result = true ->
           Evaluated.isRequestValid web = true).
Proof.
  split; [vm_compute; reflexivity|].
  apply (X3_web_app_doubles_the_window Host.Date_new Sample.eu_web).
  vm_compute; reflexivity.
Defined.

(** X4 on [us_phone_bad_signup]: no signup date, eight hours. *)
Lemma X4_witness :
  StandardCustomerData.SignupDate
    (parseCustomerInfo Host.Date_new Sample.us_phone_bad_signup) = None
  /\ calculateRefundPeriod Host.Date_new
       (parseCustomerInfo Host.Date_new Sample.us_phone_bad_signup)
     = JS.Return (JS.of_Z 8).
Proof.
  split; [vm_compute; reflexivity|].
  apply (X4_invalid_signup_or_cutoff_is_new_terms Host.Date_new
           (parseCustomerInfo Host.Date_new Sample.us_phone_bad_signup)).
  - left. vm_compute; reflexivity.
  - reflexivity.
Defined.

(** X5 on [us_phone_bad_signup]. *)
Lemma X5_witness :
  StandardCustomerData.SignupDate
    (parseCustomerInfo Host.Date_new Sample.us_phone_bad_signup)
  = Host.Date_new "yesterday/undefined/undefined".
Proof.
  exact (proj1 (X5_missing_pieces_read_undefined
                  Host.Date_new Sample.us_phone_bad_signup) eq_refl).
Defined.

(** X6 on [us_phone]. *)
Lemma X6_witness :
  StandardCustomerData.SignupDate
    (parseCustomerInfo Host.Date_new Sample.us_phone)
  = Host.Date_new "01/01/2019"
  /\ StandardCustomerData.RefundDate
       (parseCustomerInfo Host.Date_new Sample.us_phone)
     = Host.Date_new "01/10/2024 13:00".
Proof.
  destruct (X6_US_dates_pass_unchanged Host.Date_new Sample.us_phone eq_refl)
    as (Hs & _ & Hr).
  split; [exact (Hs eq_refl)|exact (Hr eq_refl)].
Defined.

(** X7 on the signup date of [eu_web]. *)
Lemma X7_witness :
  dateFormat false (JS.split "/" "15/03/2021") = "03/15/2021"
  /\ dateFormat false (JS.split "/" "03/15/2021") = "15/03/2021".
Proof.
  split; [reflexivity|].
  exact (proj2 (X7_swapping_twice_gives_the_date_back "15/03/2021" eq_refl)).
Defined.

(** X8 on the batch of [us_phone] and [eu_web]. *)
Lemma X8_witness :
  customerData Host.Date_new [Sample.us_phone; Sample.eu_web]
  = JS.Return [Sample.us_phone_result; Sample.eu_web_result]
  /\ map Evaluated.Name [Sample.us_phone_result; Sample.eu_web_result]
     = map CustomerData.Name [Sample.us_phone; Sample.eu_web].
Proof.
  assert (H : customerData Host.Date_new [Sample.us_phone; Sample.eu_web]
              = JS.Return [Sample.us_phone_result; Sample.eu_web_result])
    by (vm_compute; reflexivity).
  split; [exact H|].
  exact (proj2 (proj2 (X8_batch_results_follow_the_records
                         Host.Date_new _ _ H))).
Defined.

(** X10 on [us_phone_late]: the row reads Old and shows a window of four
    hours. *)
Lemma X10_witness :
  row Host.Date_new Host.format_text Sample.us_phone_late_result
  = JS.Return Sample.us_phone_late_row
  /\ (Row.TOS Sample.us_phone_late_row = "Old"
      <-> Row.RefundPeriod Sample.us_phone_late_row = JS.of_Z 4).
Proof.
  assert (H : row Host.Date_new Host.format_text
                Sample.us_phone_late_result
              = JS.Return Sample.us_phone_late_row)
    by (vm_compute; reflexivity).
  split; [exact H|].
  assert (E : evaluate Host.Date_new Sample.us_phone_late
              = JS.Return Sample.us_phone_late_result)
    by (vm_compute; reflexivity).
  exact (proj1 (proj1 (proj2 (X10_TOS_cell_matches_the_window
                                Host.Date_new Host.format_text
                                _ _ _ E H))
                      eq_refl)).
Defined.


(** X12 on the batch of [us_phone_late] and [eu_web]: two rows. *)
Lemma X12_witness :
  exists rows : list Row.t,
    Home Host.Date_new Host.format_text
      [Sample.us_phone_late; Sample.eu_web]
    = JS.Return rows.
Proof.
  apply (proj1 (X12_Home_returns_rows Host.Date_new Host.format_text
                  [Sample.us_phone_late; Sample.eu_web])).
  repeat constructor; try (now left); try (now right);
    vm_compute; discriminate.
Defined.

(** X13 on the batch of [us_phone_bad_signup] and [eu_web]: both records
    evaluate, and the page throws. *)
Lemma X13_witness :
  (exists r : Evaluated.t,
      evaluate Host.Date_new Sample.us_phone_bad_signup = JS.Return r)
  /\ Home Host.Date_new Host.format_text
       [Sample.us_phone_bad_signup; Sample.eu_web]
     = JS.Throw (JS.Error "Invalid time value").
Proof.
  split; [eexists; vm_compute; reflexivity|].
  apply (proj2 (X13_Home_failures Host.Date_new Host.format_text
                  [Sample.us_phone_bad_signup; Sample.eu_web])).
  - repeat constructor; try (now left); now right.
  - apply Exists_cons_hd. intros (H & _). apply H. vm_compute. reflexivity.
Defined.

(** ** Rounding to 53 bits *)

Module Rounding.

Import Binary64.
Local Open Scope Q_scope.

Lemma pow2_pos (k : Z) : 0 < pow2 k.
Proof.
  apply Qpower_0_lt. reflexivity.
Qed.

Lemma pow2_add (a b : Z) : pow2 (a + b) == pow2 a * pow2 b.
Proof.
  apply Qpower_plus. discriminate.
Qed.

Lemma pow2_le (a b : Z) : (a <= b)%Z -> pow2 a <= pow2 b.
Proof.
  intros H. apply Qpower_le_compat_l; [exact H|discriminate].
Qed.

Lemma pow2_lt (a b : Z) : (a < b)%Z -> pow2 a < pow2 b.
Proof.
  intros H. apply Qpower_lt_compat_l; [exact H|reflexivity].
Qed.

Lemma pow2_Z (k : Z) : (0 <= k)%Z -> pow2 k == inject_Z (2 ^ k).
Proof.
  intros H. symmetry. apply (Zpower_Qpower 2 k H).
Qed.

Lemma pow2_inv (k : Z) : pow2 k * pow2 (- k) == 1.
Proof.
  rewrite <- pow2_add. replace (k + - k)%Z with 0%Z by lia. reflexivity.
Qed.

Lemma pow2_succ (k : Z) : pow2 (k + 1) == 2 * pow2 k.
Proof.
  rewrite pow2_add. change (pow2 1) with 2. ring.
Qed.

Lemma Q_as_fraction (q : Q) :
  q == inject_Z (Qnum q) / inject_Z (Zpos (Qden q)).
Proof.
  destruct q as [n d]. unfold Qeq, Qdiv, Qmult, Qinv, inject_Z. simpl. lia.
Qed.

Lemma ilog2_spec (q : Q) :
  0 < q -> pow2 (ilog2 q) <= q /\ q < pow2 (ilog2 q + 1).
Proof.
  intros Hq.
  assert (Hn : (0 < Qnum q)%Z).
  { destruct q as [n d]. unfold Qlt in Hq. simpl in *. lia. }
  pose proof (Z.log2_spec (Qnum q) Hn) as [Ln Un].
  pose proof (Z.log2_spec (Zpos (Qden q)) (Pos2Z.is_pos _)) as [Ld Ud].
  pose proof (Z.log2_nonneg (Qnum q)) as An.
  pose proof (Z.log2_nonneg (Zpos (Qden q))) as Ad.
  set (a := Z.log2 (Qnum q)) in *. set (b := Z.log2 (Zpos (Qden q))) in *.
  assert (Ea : pow2 a <= inject_Z (Qnum q) /\ inject_Z (Qnum q) < pow2 (a + 1)).
  { rewrite !pow2_Z by lia. rewrite <- Zle_Qle, <- Zlt_Qlt.
    replace (a + 1)%Z with (Z.succ a) by lia. auto. }
  assert (Eb : pow2 b <= inject_Z (Zpos (Qden q))
               /\ inject_Z (Zpos (Qden q)) < pow2 (b + 1)).
  { rewrite !pow2_Z by lia. rewrite <- Zle_Qle, <- Zlt_Qlt.
    replace (b + 1)%Z with (Z.succ b) by lia. auto. }
  destruct Ea as [Ea1 Ea2]. destruct Eb as [Eb1 Eb2].
  assert (Dpos : 0 < inject_Z (Zpos (Qden q))) by reflexivity.
  pose proof (Q_as_fraction q) as Eq.
  assert (Eq' : q * inject_Z (Zpos (Qden q)) == inject_Z (Qnum q)).
  { rewrite Eq at 1. field. intros K. rewrite K in Dpos. discriminate. }
  set (n := inject_Z (Qnum q)) in *. set (d := inject_Z (Zpos (Qden q))) in *.
  pose proof (pow2_pos (a - b)) as P0.
  pose proof (pow2_pos b) as Pb.
  assert (S1 : pow2 (a + 1) == 2 * pow2 (a - b) * pow2 b).
  { rewrite pow2_succ. replace a with (a - b + b)%Z at 1 by lia.
    rewrite pow2_add. ring. }
  assert (S2 : pow2 (b + 1) == 2 * pow2 b) by apply pow2_succ.
  assert (S3 : pow2 a == pow2 (a - b) * pow2 b).
  { replace a with (a - b + b)%Z at 1 by lia. apply pow2_add. }
  assert (S4 : pow2 (a - b + 1) == 2 * pow2 (a - b)) by apply pow2_succ.
  assert (S5 : pow2 (a - b) == 2 * pow2 (a - b - 1)).
  { rewrite <- pow2_succ. replace (a - b - 1 + 1)%Z with (a - b)%Z by lia.
    reflexivity. }
  assert (S6 : pow2 (a - b - 1 + 1) == pow2 (a - b)).
  { replace (a - b - 1 + 1)%Z with (a - b)%Z by lia. reflexivity. }
  unfold ilog2. fold a b.
  destruct (Qle_bool (pow2 (a - b)) q) eqn:C.
  - apply Qle_bool_iff in C. split; [exact C|]. rewrite S4.
    nra.
  - assert (C' : q < pow2 (a - b)).
    { apply Qnot_le_lt. intros K. apply Qle_bool_iff in K. congruence. }
    rewrite S6. split; [|exact C'].
    pose proof (pow2_pos (a - b - 1)) as P1.
    nra.
Qed.

Lemma nearest_even_cases (q : Q) :
  nearest_even q = Qfloor q \/ nearest_even q = (Qfloor q + 1)%Z.
Proof.
  unfold nearest_even.
  destruct (Qcompare _ _); [destruct (Z.even _)| |]; auto.
Qed.

Lemma nearest_even_close (q : Q) :
  q - (1 # 2) <= inject_Z (nearest_even q)
  /\ inject_Z (nearest_even q) <= q + (1 # 2).
Proof.
  pose proof (Qfloor_le q) as Lo. pose proof (Qlt_floor q) as Hi.
  rewrite inject_Z_plus in Hi. change (inject_Z 1) with 1 in Hi.
  unfold nearest_even.
  destruct (Qcompare (q - inject_Z (Qfloor q)) (1 # 2)) eqn:C.
  - apply Qeq_alt in C.
    destruct (Z.even (Qfloor q)); rewrite ?inject_Z_plus;
      change (inject_Z 1) with 1; lra.
  - apply Qlt_alt in C. lra.
  - apply Qgt_alt in C. rewrite inject_Z_plus. change (inject_Z 1) with 1. lra.
Qed.

Lemma nearest_even_ge (q : Q) (z : Z) :
  inject_Z z <= q -> (z <= nearest_even q)%Z.
Proof.
  intros H. apply Qfloor_resp_le in H. rewrite Qfloor_Z in H.
  destruct (nearest_even_cases q) as [-> | ->]; lia.
Qed.

Lemma nearest_even_le (q : Q) (z : Z) :
  q <= inject_Z z -> (nearest_even q <= z)%Z.
Proof.
  intros H.
  destruct (Z_le_gt_dec (nearest_even q) z) as [L|G]; [exact L|exfalso].
  pose proof (nearest_even_close q) as [Lo _].
  pose proof (Qfloor_le q) as Fl. pose proof (Qlt_floor q) as Fh.
  rewrite inject_Z_plus in Fh. change (inject_Z 1) with 1 in Fh.
  assert (Fz : (Qfloor q < z)%Z \/ (Qfloor q = z /\ q == inject_Z z)).
  { assert (K : (Qfloor q <= z)%Z).
    { apply Qfloor_resp_le in H. now rewrite Qfloor_Z in H. }
    destruct (Z.eq_dec (Qfloor q) z) as [E|N]; [right|left; lia].
    split; [exact E|]. subst z. now apply Qle_antisym. }
  destruct Fz as [Fz|[Fz Eq]].
  - destruct (nearest_even_cases q) as [E|E]; rewrite E in G; lia.
  - unfold nearest_even in G. rewrite Fz in G.
    assert (C : Qcompare (q - inject_Z z) (1 # 2) = Lt).
    { rewrite <- Qlt_alt. lra. }
    rewrite C in G. lia.
Qed.

Lemma nearest_even_Z (z : Z) : nearest_even (inject_Z z) = z.
Proof.
  apply Z.le_antisymm.
  - apply nearest_even_le, Qle_refl.
  - apply nearest_even_ge, Qle_refl.
Qed.

(** The scaled value of a positive number lies between 2^52 and 2^53. *)
Lemma scaled_bounds (q : Q) :
  0 < q ->
  pow2 52 <= q * pow2 (- (ilog2 q - 52))
  /\ q * pow2 (- (ilog2 q - 52)) < pow2 53.
Proof.
  intros Hq. destruct (ilog2_spec q Hq) as [Lo Hi].
  set (l := ilog2 q) in *.
  pose proof (pow2_pos (- (l - 52))) as P.
  assert (E1 : pow2 l * pow2 (- (l - 52)) == pow2 52).
  { rewrite <- pow2_add. replace (l + - (l - 52))%Z with 52%Z by lia.
    reflexivity. }
  assert (E2 : pow2 (l + 1) * pow2 (- (l - 52)) == pow2 53).
  { rewrite <- pow2_add. replace (l + 1 + - (l - 52))%Z with 53%Z by lia.
    reflexivity. }
  split.
  - rewrite <- E1. apply Qmult_le_compat_r; [exact Lo|lra].
  - rewrite <- E2. apply Qmult_lt_compat_r; [exact P|exact Hi].
Qed.

Lemma mantissa_bounds (q : Q) :
  0 < q ->
  (2 ^ 52 <= nearest_even (q * pow2 (- (ilog2 q - 52))) <= 2 ^ 53)%Z.
Proof.
  intros Hq. destruct (scaled_bounds q Hq) as [Lo Hi]. split.
  - apply nearest_even_ge. rewrite <- pow2_Z by lia. exact Lo.
  - apply nearest_even_le. rewrite <- pow2_Z by lia. lra.
Qed.

Lemma round_positive_pos (q : Q) : 0 < q -> 0 < round_positive q.
Proof.
  intros Hq. unfold round_positive.
  destruct (mantissa_bounds q Hq) as [Lo _].
  apply Qmult_lt_0_compat; [|apply pow2_pos].
  change 0 with (inject_Z 0). rewrite <- Zlt_Qlt. lia.
Qed.

(** The error of one rounding is at most half a unit in the last place,
    which is at most the 2^53-th part of the number. *)
Lemma round_positive_error (q : Q) :
  0 < q ->
  Qabs (round_positive q - q) <= q * (1 # 2 ^ 53).
Proof.
  intros Hq. unfold round_positive.
  destruct (scaled_bounds q Hq) as [Lo _].
  set (e := (ilog2 q - 52)%Z) in *.
  pose proof (nearest_even_close (q * pow2 (- e))) as [C1 C2].
  set (m := inject_Z (nearest_even (q * pow2 (- e)))) in *.
  pose proof (pow2_pos e) as Pe. pose proof (pow2_pos (- e)) as Pn.
  pose proof (pow2_inv e) as I.
  change (pow2 52) with (4503599627370496 # 1) in Lo.
  change (1 # 2 ^ 53) with (1 # 9007199254740992).
  apply Qabs_case; intros _; nra.
Qed.

Lemma round_pos (q : Q) : 0 < q -> 0 < round q.
Proof.
  intros H. unfold round. rewrite Qgt_alt in H. rewrite H.
  apply round_positive_pos. now rewrite Qgt_alt.
Qed.

Lemma round_neg (q : Q) : q < 0 -> round q < 0.
Proof.
  intros H. unfold round. pose proof H as H'. rewrite Qlt_alt in H'.
  rewrite H'.
  assert (P : 0 < round_positive (- q)) by (apply round_positive_pos; lra).
  lra.
Qed.

Lemma round_zero (q : Q) : q == 0 -> round q == 0.
Proof.
  intros H. unfold round. rewrite Qeq_alt in H. rewrite H. reflexivity.
Qed.

Lemma round_sign (q : Q) :
  (round q < 0 <-> q < 0) /\ (0 < round q <-> 0 < q)
  /\ (round q == 0 <-> q == 0).
Proof.
  destruct (Q_dec q 0) as [[L|G]|E].
  - pose proof (round_neg q L). repeat split; intros; lra.
  - pose proof (round_pos q G). repeat split; intros; lra.
  - pose proof (round_zero q E). repeat split; intros; lra.
Qed.

Lemma round_error (q : Q) :
  Qabs (round q - q) <= Qabs q * (1 # 2 ^ 53).
Proof.
  destruct (Q_dec q 0) as [[L|G]|E].
  - unfold round. pose proof L as L'. rewrite Qlt_alt in L'. rewrite L'.
    assert (P : 0 < - q) by lra.
    pose proof (round_positive_error (- q) P) as R.
    rewrite (Qabs_neg q) by lra.
    revert R. apply Qabs_case; intros A R; apply Qabs_case; intros B; lra.
  - unfold round. pose proof G as G'. rewrite Qgt_alt in G'. rewrite G'.
    rewrite (Qabs_pos q) by lra. now apply round_positive_error.
  - rewrite (round_zero q E), E. discriminate.
Qed.

(** A number that sits on the grid of its own binade is not changed. *)
Lemma round_positive_grid (q : Q) (k : Z) :
  0 < q ->
  q * pow2 (- (ilog2 q - 52)) == inject_Z k ->
  round_positive q == q.
Proof.
  intros Hq E. unfold round_positive.
  set (e := (ilog2 q - 52)%Z) in *.
  assert (N : nearest_even (q * pow2 (- e)) = k).
  { apply Z.le_antisymm.
    - apply nearest_even_le. rewrite E. apply Qle_refl.
    - apply nearest_even_ge. rewrite E. apply Qle_refl. }
  rewrite N, <- E, <- Qmult_assoc.
  rewrite (Qmult_comm (pow2 (- e))), pow2_inv. ring.
Qed.

Lemma round_positive_integer (q : Q) (z : Z) :
  q == inject_Z z -> (0 < z <= 2 ^ 53)%Z -> round_positive q == q.
Proof.
  intros E [Zp Zb].
  assert (Hq : 0 < q).
  { rewrite E. change 0 with (inject_Z 0). now rewrite <- Zlt_Qlt. }
  destruct (ilog2_spec q Hq) as [Lo _].
  assert (Hb : q <= pow2 53).
  { rewrite E, pow2_Z by lia. now rewrite <- Zle_Qle. }
  assert (Ll : (ilog2 q <= 53)%Z).
  { apply (Qpower_le_compat_l_inv 2); [|reflexivity].
    fold (pow2 (ilog2 q)) (pow2 53). lra. }
  destruct (Z.eq_dec (ilog2 q) 53) as [L53|N53].
  - apply (round_positive_grid q (2 ^ 52)); [exact Hq|].
    rewrite L53 in *.
    assert (Eq : q == pow2 53) by (apply Qle_antisym; assumption).
    rewrite Eq. reflexivity.
  - apply (round_positive_grid q (z * 2 ^ (- (ilog2 q - 52)))); [exact Hq|].
    rewrite inject_Z_mult, <- pow2_Z by lia.
    apply Qmult_comp; [exact E|reflexivity].
Qed.

Lemma round_integer (q : Q) (z : Z) :
  q == inject_Z z -> (Z.abs z <= 2 ^ 53)%Z -> round q == q.
Proof.
  intros E B. destruct (Z.lt_trichotomy z 0) as [L|[Z0|G]].
  - assert (Hq : q < 0).
    { rewrite E. change 0 with (inject_Z 0). now rewrite <- Zlt_Qlt. }
    unfold round. pose proof Hq as H'. rewrite Qlt_alt in H'. rewrite H'.
    rewrite (round_positive_integer (- q) (- z)); [ring| |lia].
    rewrite E, inject_Z_opp. reflexivity.
  - subst z. now rewrite (round_zero q E), E.
  - assert (Hq : 0 < q).
    { rewrite E. change 0 with (inject_Z 0). now rewrite <- Zlt_Qlt. }
    unfold round. pose proof Hq as H'. rewrite Qgt_alt in H'. rewrite H'.
    apply (round_positive_integer q z E). lia.
Qed.

Lemma ilog2_lt (q : Q) (n : Z) : 0 < q -> q < pow2 n -> (ilog2 q < n)%Z.
Proof.
  intros Hq H. destruct (ilog2_spec q Hq) as [Lo _].
  apply (Qpower_lt_compat_l_inv 2); [|reflexivity].
  fold (pow2 (ilog2 q)) (pow2 n). lra.
Qed.

Lemma ilog2_ge (q : Q) (n : Z) : 0 < q -> pow2 n <= q -> (n <= ilog2 q)%Z.
Proof.
  intros Hq H. destruct (ilog2_spec q Hq) as [_ Hi].
  assert (L : (n < ilog2 q + 1)%Z); [|lia].
  apply (Qpower_lt_compat_l_inv 2); [|reflexivity].
  fold (pow2 (ilog2 q + 1)) (pow2 n). lra.
Qed.

Lemma round_positive_ge_pow2 (q : Q) :
  0 < q -> pow2 (ilog2 q) <= round_positive q.
Proof.
  intros Hq. unfold round_positive.
  destruct (mantissa_bounds q Hq) as [Lo _].
  set (e := (ilog2 q - 52)%Z) in *.
  set (m := nearest_even (q * pow2 (- e))) in *.
  assert (E : pow2 (ilog2 q) == pow2 52 * pow2 e).
  { rewrite <- pow2_add. unfold e.
    replace (52 + (ilog2 q - 52))%Z with (ilog2 q) by lia. reflexivity. }
  rewrite E. apply Qmult_le_compat_r; [|apply Qlt_le_weak, pow2_pos].
  rewrite pow2_Z by lia. now rewrite <- Zle_Qle.
Qed.

(** A grid point [k * 2^g] of the binade of [q], or of a finer grid, is not
    crossed by the rounding of [q]. *)
Lemma on_grid (q : Q) (k g : Z) :
  (ilog2 q - 52 <= g)%Z ->
  inject_Z k * pow2 g * pow2 (- (ilog2 q - 52))
  == inject_Z (k * 2 ^ (g - (ilog2 q - 52))).
Proof.
  intros H. set (e := (ilog2 q - 52)%Z) in *.
  rewrite inject_Z_mult, <- pow2_Z by lia.
  rewrite <- Qmult_assoc, <- pow2_add.
  replace (g + - e)%Z with (g - e)%Z by lia. reflexivity.
Qed.

Lemma round_positive_below (q : Q) (k g : Z) :
  0 < q -> (ilog2 q - 52 <= g)%Z ->
  q <= inject_Z k * pow2 g -> round_positive q <= inject_Z k * pow2 g.
Proof.
  intros Hq Hg H. unfold round_positive.
  pose proof (on_grid q k g Hg) as OG.
  set (e := (ilog2 q - 52)%Z) in *.
  pose proof (pow2_pos e) as Pe. pose proof (pow2_pos (- e)) as Pn.
  pose proof (pow2_inv e) as I.
  assert (S : q * pow2 (- e) <= inject_Z (k * 2 ^ (g - e))).
  { rewrite <- OG. apply Qmult_le_compat_r; [exact H|lra]. }
  apply nearest_even_le in S. rewrite Zle_Qle in S.
  set (m := inject_Z (nearest_even (q * pow2 (- e)))) in *.
  set (K := inject_Z (k * 2 ^ (g - e))) in *.
  set (x := inject_Z k * pow2 g) in *.
  nra.
Qed.

Lemma round_positive_above (q : Q) (k g : Z) :
  0 < q -> (ilog2 q - 52 <= g)%Z ->
  inject_Z k * pow2 g <= q -> inject_Z k * pow2 g <= round_positive q.
Proof.
  intros Hq Hg H. unfold round_positive.
  pose proof (on_grid q k g Hg) as OG.
  set (e := (ilog2 q - 52)%Z) in *.
  pose proof (pow2_pos e) as Pe. pose proof (pow2_pos (- e)) as Pn.
  pose proof (pow2_inv e) as I.
  assert (S : inject_Z (k * 2 ^ (g - e)) <= q * pow2 (- e)).
  { rewrite <- OG. apply Qmult_le_compat_r; [exact H|lra]. }
  apply nearest_even_ge in S. rewrite Zle_Qle in S.
  set (m := inject_Z (nearest_even (q * pow2 (- e)))) in *.
  set (K := inject_Z (k * 2 ^ (g - e))) in *.
  set (x := inject_Z k * pow2 g) in *.
  nra.
Qed.

(** Rounding does not cross a number [k * 2^g] below [2^(g + 53)]: what is
    at most that number rounds to at most that number. *)
Lemma round_below (q : Q) (k g : Z) :
  0 <= inject_Z k * pow2 g -> inject_Z k * pow2 g < pow2 (g + 53) ->
  q <= inject_Z k * pow2 g -> round q <= inject_Z k * pow2 g.
Proof.
  intros X0 Xb H. destruct (Q_dec q 0) as [[L|G]|E].
  - pose proof (round_neg q L). lra.
  - unfold round. pose proof G as G'. rewrite Qgt_alt in G'. rewrite G'.
    apply round_positive_below; [exact G| |exact H].
    assert (ilog2 q < g + 53)%Z; [|lia].
    apply ilog2_lt; [exact G|lra].
  - rewrite (round_zero q E). exact X0.
Qed.

(** And what is at least that number rounds to at least that number. *)
Lemma round_above (q : Q) (k g : Z) :
  0 < inject_Z k * pow2 g -> inject_Z k * pow2 g < pow2 (g + 53) ->
  inject_Z k * pow2 g <= q -> inject_Z k * pow2 g <= round q.
Proof.
  intros X0 Xb H. assert (G : 0 < q) by lra.
  unfold round. pose proof G as G'. rewrite Qgt_alt in G'. rewrite G'.
  destruct (Z_le_gt_dec (ilog2 q - 52) g) as [Hg|Hg].
  - now apply round_positive_above.
  - pose proof (round_positive_ge_pow2 q G) as R.
    assert (P : pow2 (g + 53) <= pow2 (ilog2 q)) by (apply pow2_le; lia).
    lra.
Qed.

Lemma verdict_agrees (dq c : Q) (d w : Z) :
  dq == inject_Z d -> c == 3600000 ->
  (w = 4 \/ w = 8 \/ w = 16)%Z ->
  Qle_bool (round (round dq / c)) (inject_Z w)
  = Qle_bool (dq / 3600000) (inject_Z w).
Proof.
  intros Ed Ec Hw.
  assert (Ew : inject_Z w == 4 \/ inject_Z w == 8 \/ inject_Z w == 16).
  { destruct Hw as [->|[->| ->]]; [left|right; left|right; right];
      reflexivity. }
  assert (Cp : 0 < c) by (rewrite Ec; reflexivity).
  assert (Ci : c * / c == 1) by (apply Qmult_inv_r; lra).
  assert (Cip : 0 < / c) by now apply Qinv_lt_0_compat.
  destruct (Z_le_gt_dec d (w * 3600000)) as [Le|Gt].
  - assert (H1 : round dq <= inject_Z (w * 3600000) * pow2 0).
    { apply round_below.
      - change (pow2 0) with 1. rewrite Qmult_1_r.
        change 0 with (inject_Z 0). rewrite <- Zle_Qle. lia.
      - change (pow2 0) with 1. rewrite Qmult_1_r, pow2_Z by lia.
        rewrite <- Zlt_Qlt. destruct Hw as [->|[->| ->]]; reflexivity.
      - change (pow2 0) with 1. rewrite Qmult_1_r, Ed.
        now rewrite <- Zle_Qle. }
    change (pow2 0) with 1 in H1. rewrite Qmult_1_r, inject_Z_mult in H1.
    change (inject_Z 3600000) with 3600000 in H1.
    assert (H2 : round (round dq / c) <= inject_Z w * pow2 0).
    { apply round_below.
      - change (pow2 0) with 1.
        destruct Ew as [E|[E|E]]; rewrite E; discriminate.
      - change (pow2 0) with 1. rewrite Qmult_1_r, pow2_Z by lia.
        rewrite <- Zlt_Qlt. destruct Hw as [->|[->| ->]]; reflexivity.
      - change (pow2 0) with 1. rewrite Qmult_1_r. unfold Qdiv.
        nra. }
    change (pow2 0) with 1 in H2. rewrite Qmult_1_r in H2.
    apply Qle_bool_iff in H2. rewrite H2. symmetry. apply Qle_bool_iff.
    rewrite Ed. rewrite Zle_Qle, inject_Z_mult in Le.
    change (inject_Z 3600000) with 3600000 in Le.
    unfold Qdiv. change (/ 3600000) with (1 # 3600000). lra.
  - assert (H1 : inject_Z (w * 3600000 + 1) * pow2 0 <= round dq).
    { apply round_above.
      - change (pow2 0) with 1. rewrite Qmult_1_r.
        change 0 with (inject_Z 0). rewrite <- Zlt_Qlt. lia.
      - change (pow2 0) with 1. rewrite Qmult_1_r, pow2_Z by lia.
        rewrite <- Zlt_Qlt. destruct Hw as [->|[->| ->]]; reflexivity.
      - change (pow2 0) with 1. rewrite Qmult_1_r, Ed.
        rewrite <- Zle_Qle. lia. }
    change (pow2 0) with 1 in H1.
    rewrite Qmult_1_r, inject_Z_plus, inject_Z_mult in H1.
    change (inject_Z 3600000) with 3600000 in H1.
    change (inject_Z 1) with 1 in H1.
    assert (H2 : inject_Z (w * 2 ^ 30 + 1) * pow2 (- 30)
                 <= round (round dq / c)).
    { apply round_above.
      - apply Qmult_lt_0_compat; [|apply pow2_pos].
        change 0 with (inject_Z 0). rewrite <- Zlt_Qlt. lia.
      - destruct Hw as [->|[->| ->]]; reflexivity.
      - rewrite inject_Z_plus, inject_Z_mult.
        change (inject_Z (2 ^ 30)) with 1073741824.
        change (inject_Z 1) with 1.
        change (pow2 (- 30)) with (1 # 1073741824). unfold Qdiv.
        nra. }
    rewrite inject_Z_plus, inject_Z_mult in H2.
    change (inject_Z (2 ^ 30)) with 1073741824 in H2.
    change (inject_Z 1) with 1 in H2.
    change (pow2 (- 30)) with (1 # 1073741824) in H2.
    assert (N1 : Qle_bool (round (round dq / c)) (inject_Z w) = false).
    { apply not_true_iff_false. intros K. apply Qle_bool_iff in K.
      lra. }
    rewrite N1. symmetry. apply not_true_iff_false. intros K.
    apply Qle_bool_iff in K. rewrite Ed in K.
    unfold Qdiv in K. change (/ 3600000) with (1 # 3600000) in K.
    assert (G : inject_Z (w * 3600000 + 1) <= inject_Z d)
      by (rewrite <- Zle_Qle; lia).
    rewrite inject_Z_plus, inject_Z_mult in G.
    change (inject_Z 3600000) with 3600000 in G.
    change (inject_Z 1) with 1 in G.
    lra.
Qed.

Lemma ilog2_Qeq (q q' : Q) : 0 < q -> q == q' -> ilog2 q = ilog2 q'.
Proof.
  intros Hq E. assert (Hq' : 0 < q') by now rewrite <- E.
  destruct (ilog2_spec q Hq) as [Lo Hi].
  destruct (ilog2_spec q' Hq') as [Lo' Hi'].
  apply Z.le_antisymm.
  - apply ilog2_ge; [exact Hq'|]. now rewrite <- E.
  - apply ilog2_ge; [exact Hq|]. now rewrite E.
Qed.

Lemma nearest_even_Qeq (x x' : Q) :
  x == x' -> nearest_even x = nearest_even x'.
Proof.
  intros E. unfold nearest_even. rewrite (Qfloor_comp x x' E).
  assert (C : Qcompare (x - inject_Z (Qfloor x')) (1 # 2)
              = Qcompare (x' - inject_Z (Qfloor x')) (1 # 2))
    by now rewrite E.
  now rewrite C.
Qed.

Lemma round_positive_Qeq (q q' : Q) :
  0 < q -> q == q' -> round_positive q == round_positive q'.
Proof.
  intros Hq E. unfold round_positive. rewrite <- (ilog2_Qeq q q' Hq E).
  rewrite (nearest_even_Qeq (q * pow2 (- (ilog2 q - 52)))
                            (q' * pow2 (- (ilog2 q - 52)))).
  - reflexivity.
  - apply Qmult_comp; [exact E|reflexivity].
Qed.

(** Equal numbers have equal roundings, whatever fractions they are
    written as. *)
Lemma round_Qeq (q q' : Q) : q == q' -> round q == round q'.
Proof.
  intros E. unfold round.
  assert (C : Qcompare q 0 = Qcompare q' 0) by now rewrite E.
  rewrite <- C. destruct (Qcompare q 0) eqn:K.
  - reflexivity.
  - rewrite <- Qlt_alt in K.
    rewrite (round_positive_Qeq (- q) (- q')); [reflexivity|lra|].
    now rewrite E.
  - rewrite <- Qgt_alt in K. now apply round_positive_Qeq.
Qed.

(** A rounded number has at most 53 significant bits. *)
Lemma round_representable (q : Q) :
  exists m e : Z, (Z.abs m <= 2 ^ 53)%Z /\ round q == inject_Z m * pow2 e.
Proof.
  unfold round. destruct (Qcompare q 0) eqn:K.
  - exists 0%Z, 0%Z. split; [discriminate|reflexivity].
  - rewrite <- Qlt_alt in K. assert (P : 0 < - q) by lra.
    destruct (mantissa_bounds (- q) P) as [Lo Hi].
    exists (- nearest_even (- q * pow2 (- (ilog2 (- q) - 52))))%Z,
           (ilog2 (- q) - 52)%Z.
    split; [lia|]. unfold round_positive. rewrite inject_Z_opp. ring.
  - rewrite <- Qgt_alt in K.
    destruct (mantissa_bounds q K) as [Lo Hi].
    exists (nearest_even (q * pow2 (- (ilog2 q - 52)))),
           (ilog2 q - 52)%Z.
    split; [lia|]. reflexivity.
Qed.

End Rounding.

(** ** The elapsed time in binary64: properties *)

(** The divisor [60 * 60 * 1000] is 3600000: its two products are exact. *)
Lemma binary64_hour :
  exists c : Q,
    Binary64.mul (Binary64.mul (JS.of_Z 60) (JS.of_Z 60)) (JS.of_Z 1000)
    = JS.Num c
    /\ (c == 3600000)%Q.
Proof.
  eexists. split; vm_compute; reflexivity.
Qed.

(** The elapsed time between two valid dates: the difference rounded, then
    its quotient by 3600000 rounded. *)
Lemma binary64_timing_dates (customer : StandardCustomerData.t) (i r : Z) :
  StandardCustomerData.InvestmentDate customer = Some i ->
  StandardCustomerData.RefundDate customer = Some r ->
  exists c : Q,
    (c == 3600000)%Q
    /\ Binary64.calculateRequestTiming customer
       = JS.Num
           (Binary64.round
              (Binary64.round (inject_Z r - inject_Z i) / c)).
Proof.
  intros Ei Er. destruct binary64_hour as (c & Hc & Ec).
  exists c. split; [exact Ec|].
  unfold Binary64.calculateRequestTiming. rewrite Ei, Er, Hc.
  unfold JS.getTime, JS.of_Z, Binary64.sub, Binary64.div.
  assert (N : Qeq_bool c 0 = false).
  { apply not_true_iff_false. intros K. apply Qeq_bool_iff in K.
    rewrite K in Ec. discriminate. }
  now rewrite N.
Qed.

Lemma binary64_timing_invalid (customer : StandardCustomerData.t) :
  StandardCustomerData.InvestmentDate customer = None
  \/ StandardCustomerData.RefundDate customer = None ->
  Binary64.calculateRequestTiming customer = JS.NaN.
Proof.
  unfold Binary64.calculateRequestTiming. intros [E|E]; rewrite E.
  - destruct (StandardCustomerData.RefundDate customer); reflexivity.
  - reflexivity.
Qed.

(** What [Binary64.evaluate] returns, field by field. *)
Lemma binary64_evaluate_Return (Date_new : string -> JS.Date)
    (data : CustomerData.t) (r : Evaluated.t) :
  Binary64.evaluate Date_new data = JS.Return r ->
  calculateRefundPeriod Date_new (parseCustomerInfo Date_new data)
  = JS.Return (Evaluated.refundPeriod r)
  /\ Evaluated.requestTiming r
     = Binary64.calculateRequestTiming (parseCustomerInfo Date_new data)
  /\ Evaluated.isRequestValid r
     = JS.leb (Evaluated.requestTiming r) (Evaluated.refundPeriod r)
  /\ Evaluated.InvestmentDate r
     = StandardCustomerData.InvestmentDate (parseCustomerInfo Date_new data)
  /\ Evaluated.RefundDate r
     = StandardCustomerData.RefundDate (parseCustomerInfo Date_new data).
Proof.
  unfold Binary64.evaluate.
  destruct (calculateRefundPeriod Date_new (parseCustomerInfo Date_new data))
    as [p|e]; simpl; intros H; [|discriminate].
  injection H as <-. simpl. repeat split.
Qed.

(** The sign of the elapsed time is the sign of the difference. *)
Lemma binary64_timing_sign (i r : Z) (c : Q) :
  (c == 3600000)%Q ->
  let h := Binary64.round (Binary64.round (inject_Z r - inject_Z i) / c) in
  ((h < 0)%Q <-> (r < i)%Z) /\ ((0 < h)%Q <-> (i < r)%Z)
  /\ ((h == 0)%Q <-> r = i).
Proof.
  intros Ec h.
  assert (Cp : (0 < c)%Q) by (rewrite Ec; reflexivity).
  assert (Ci : (c * / c == 1)%Q) by (apply Qmult_inv_r; lra).
  assert (Cip : (0 < / c)%Q) by now apply Qinv_lt_0_compat.
  destruct (Rounding.round_sign
              (Binary64.round (inject_Z r - inject_Z i) / c))
    as (N1 & P1 & Z1).
  destruct (Rounding.round_sign (inject_Z r - inject_Z i)) as (N2 & P2 & Z2).
  fold h in N1, P1, Z1. unfold Qdiv in N1, P1, Z1.
  set (x := Binary64.round (inject_Z r - inject_Z i)) in *.
  rewrite Zlt_Qlt, Zlt_Qlt.
  split; [|split].
  - rewrite N1. split; intros K.
    + assert (x < 0)%Q by nra. apply N2 in H. lra.
    + assert (x < 0)%Q by (apply N2; lra). nra.
  - rewrite P1. split; intros K.
    + assert (0 < x)%Q by nra. apply P2 in H. lra.
    + assert (0 < x)%Q by (apply P2; lra). nra.
  - rewrite Z1. split; intros K.
    + assert (E : (x == 0)%Q) by nra. apply Z2 in E.
      apply inject_Z_injective. lra.
    + assert (E : (x == 0)%Q) by (apply Z2; rewrite K; ring). nra.
Qed.

(** The verdict of binary64 against a window, in milliseconds. *)
Lemma leb_hours_binary64 (i r w : Z) (c : Q) :
  (c == 3600000)%Q -> (w = 4 \/ w = 8 \/ w = 16)%Z ->
  JS.leb
    (JS.Num (Binary64.round (Binary64.round (inject_Z r - inject_Z i) / c)))
    (JS.of_Z w) = true
  <-> (r - i <= w * 3600000)%Z.
Proof.
  intros Ec Hw. unfold JS.leb, JS.of_Z.
  rewrite (Rounding.verdict_agrees (inject_Z r - inject_Z i) c (r - i) w);
    [|unfold Z.sub; rewrite inject_Z_plus, inject_Z_opp; reflexivity
     |exact Ec|exact Hw].
  rewrite Qle_bool_iff.
  unfold Qle, Qdiv, Qminus, Qplus, Qopp, Qmult, Qinv, inject_Z. simpl. lia.
Qed.




(** X14: [evaluate] with the arithmetic of binary64 returns the verdict,
    the window and the dates that [evaluate] with exact arithmetic returns,
    and throws what it throws: the rounding of the elapsed time never
    changes a verdict. *)
Theorem X14_rounding_never_changes_the_verdict
    (Date_new : string -> JS.Date) (data : CustomerData.t) :
  (forall res : Evaluated.t,
      evaluate Date_new data = JS.Return res ->
      exists res64 : Evaluated.t,
        Binary64.evaluate Date_new data = JS.Return res64
        /\ Evaluated.isRequestValid res64 = Evaluated.isRequestValid res
        /\ Evaluated.refundPeriod res64 = Evaluated.refundPeriod res
        /\ Evaluated.SignupDate res64 = Evaluated.SignupDate res
        /\ Evaluated.InvestmentDate res64 = Evaluated.InvestmentDate res
        /\ Evaluated.RefundDate res64 = Evaluated.RefundDate res
        /\ Evaluated.requestTiming res64
           = Binary64.calculateRequestTiming
               (parseCustomerInfo Date_new data))
  /\ (forall e : JS.exn,
        evaluate Date_new data = JS.Throw e ->
        Binary64.evaluate Date_new data = JS.Throw e).
Proof.
  unfold evaluate, Binary64.evaluate.
  destruct (calculateRefundPeriod Date_new (parseCustomerInfo Date_new data))
    as [p|e] eqn:Hp; simpl; split; intros x H; try discriminate;
    [|exact H].
  injection H as <-. eexists. split; [reflexivity|]. simpl.
  split; [|repeat split].
  apply calculateRefundPeriod_values in Hp.
  assert (Hw : exists w : Z, p = JS.of_Z w /\ (w = 4 \/ w = 8 \/ w = 16)%Z)
    by (destruct Hp as [->|[->| ->]]; eauto 6).
  destruct Hw as (w & -> & Hw).
  set (customer := parseCustomerInfo Date_new data).
  destruct (StandardCustomerData.InvestmentDate customer) as [i|] eqn:Ei.
  - destruct (StandardCustomerData.RefundDate customer) as [r|] eqn:Er.
    + destruct (binary64_timing_dates customer i r Ei Er) as (c & Ec & ->).
      rewrite (calculateRequestTiming_dates customer i r Ei Er).
      apply eq_true_iff_eq.
      rewrite (leb_hours_binary64 i r w c Ec Hw). symmetry.
      apply leb_hours.
    + rewrite binary64_timing_invalid by now right.
      rewrite calculateRequestTiming_invalid by now right. reflexivity.
  - rewrite binary64_timing_invalid by now left.
    rewrite calculateRequestTiming_invalid by now left. reflexivity.
Qed.

(** X14 on [us_phone_1401]: invalid with exact arithmetic, invalid in
    binary64. *)
Lemma X14_witness :
  exists res : Evaluated.t,
    evaluate Host.Date_new Sample.us_phone_1401 = JS.Return res
    /\ exists res64 : Evaluated.t,
         Binary64.evaluate Host.Date_new Sample.us_phone_1401
         = JS.Return res64
         /\ Evaluated.isRequestValid res64 = Evaluated.isRequestValid res.
Proof.
  eexists. split; [vm_compute; reflexivity|].
  destruct (proj1 (X14_rounding_never_changes_the_verdict
                     Host.Date_new Sample.us_phone_1401)
              _ eq_refl)
    as (res64 & H & V & _).
  exists res64. split; [exact H|exact V].
Defined.
